(** * django-filer: the [File] model (filer/models/filemodels.py)

    A shallow embedding of the file model of django-filer: the duplicate
    queries of [FileManager], the data-changed callback with its size and
    SHA-1 caches, the move of a blob between the public and the private
    storage when [is_public] changes, the guarded deletion of blobs, the
    canonical URL, and the two header-only delivery backends.

    Python objects are mutable and methods raise, so methods are written in
    a state-and-exception monad over a [State] that holds the instance
    ([self]), the two storages, the table of persisted rows and a log of the
    storage and file operations that were issued. *)

From stdpp Require Import gmap strings list fin_maps pretty.
From Equations Require Import Equations.
From Equations.Prop Require Import Logic.
From Stdlib Require Import ZArith Strings.Byte Strings.Ascii.

Local Open Scope Z_scope.

(** ** hashlib.sha1

    The standard library's SHA-1 (FIPS 180-4), on 32-bit words kept in [Z]
    with the wrap-around written out. A hash object accumulates the bytes it
    is fed; the digest is computed over all of them. *)

Abbreviation bytes := (list byte).

Module hashlib.

Definition mask32 : Z := 0xFFFFFFFF.
Definition add32 (a b : Z) : Z := Z.land (a + b) mask32.
Definition not32 (a : Z) : Z := Z.lxor a mask32.
Definition rotl32 (n x : Z) : Z :=
  Z.land (Z.lor (Z.shiftl x n) (Z.shiftr x (32 - n))) mask32.

Definition byte_val (b : byte) : Z := Z.of_N (Byte.to_N b).

(** [k] bytes of [v], most significant first. *)
Definition be_bytes (k : nat) (v : Z) : list Z :=
  map (λ i, Z.land (Z.shiftr v (8 * Z.of_nat i)) 255) (rev (seq 0 k)).

(** Message padding: a 1 bit, zeros up to 56 mod 64, the bit length on 64 bits. *)
Definition pad (msg : list Z) : list Z :=
  let l := Z.of_nat (length msg) in
  msg ++ [128] ++ replicate (Z.to_nat ((55 - l) `mod` 64)) 0 ++ be_bytes 8 (8 * l).

Fixpoint words (bs : list Z) : list Z :=
  match bs with
  | a :: b :: c :: d :: r =>
      Z.lor (Z.lor (Z.shiftl a 24) (Z.shiftl b 16)) (Z.lor (Z.shiftl c 8) d) :: words r
  | _ => []
  end.

(** Message schedule, most recent word first. *)
Fixpoint expand (n : nat) (w : list Z) : list Z :=
  match n with
  | O => w
  | S n' =>
      let x := Z.lxor (Z.lxor (nth 2 w 0) (nth 7 w 0)) (Z.lxor (nth 13 w 0) (nth 15 w 0)) in
      expand n' (rotl32 1 x :: w)
  end.

Definition schedule (block : list Z) : list Z := rev (expand 64 (rev block)).

Definition Regs : Type := Z * Z * Z * Z * Z.

Definition round (s : Regs) (tw : nat * Z) : Regs :=
  let '(a, b, c, d, e) := s in
  let '(t, wt) := tw in
  let '(f, k) :=
    if (t <? 20)%nat then (Z.lor (Z.land b c) (Z.land (not32 b) d), 0x5A827999)
    else if (t <? 40)%nat then (Z.lxor (Z.lxor b c) d, 0x6ED9EBA1)
    else if (t <? 60)%nat then
      (Z.lor (Z.lor (Z.land b c) (Z.land b d)) (Z.land c d), 0x8F1BBCDC)
    else (Z.lxor (Z.lxor b c) d, 0xCA62C1D6) in
  (add32 (add32 (add32 (add32 (rotl32 5 a) f) e) k) wt, a, rotl32 30 b, c, d).

Definition compress (h : Regs) (block : list Z) : Regs :=
  let '(a, b, c, d, e) := foldl round h (imap (λ t w, (t, w)) (schedule block)) in
  let '(h0, h1, h2, h3, h4) := h in
  (add32 h0 a, add32 h1 b, add32 h2 c, add32 h3 d, add32 h4 e).

Fixpoint process (fuel : nat) (h : Regs) (ws : list Z) : Regs :=
  match fuel, ws with
  | S fuel', _ :: _ => process fuel' (compress h (take 16 ws)) (drop 16 ws)
  | _, _ => h
  end.

Definition initial : Regs :=
  (0x67452301, 0xEFCDAB89, 0x98BADCFE, 0x10325476, 0xC3D2E1F0).

Definition digest_words (msg : bytes) : list Z :=
  let ws := words (pad (map byte_val msg)) in
  let '(h0, h1, h2, h3, h4) := process (length ws) initial ws in
  [h0; h1; h2; h3; h4].

Definition hex_digit (n : Z) : ascii :=
  default "0"%char (String.list_ascii_of_string "0123456789abcdef" !! Z.to_nat n).

Definition hex32 (w : Z) : list ascii :=
  map (λ i, hex_digit (Z.land (Z.shiftr w (4 * i)) 15)) [7; 6; 5; 4; 3; 2; 1; 0].

(** The hash object: [sha1()], [update], [hexdigest]. *)
Record Hash := mkHash { fed : bytes }.

Definition sha1 : Hash := mkHash [].
Definition update (h : Hash) (buf : bytes) : Hash := mkHash (fed h ++ buf).
Definition hexdigest (h : Hash) : string :=
  String.string_of_list_ascii (concat (map hex32 (digest_words (fed h)))).

End hashlib.

(** ** Python exceptions *)

Inductive Exn :=
| ValueError | TypeError | OSError | FileNotFoundError
| NotImplementedError | NoReverseMatch
| KeyboardInterrupt | SystemExit.

(** [isinstance(e, Exception)]: [KeyboardInterrupt] and [SystemExit] derive
    from [BaseException] only, so [except Exception] lets them through and a
    bare [except:] catches them. *)
Definition is_Exception (e : Exn) : bool :=
  match e with
  | KeyboardInterrupt | SystemExit => false
  | _ => true
  end.

(** ** The data model *)

(** The keys of [file.storages]. *)
Inductive Tier := public | private.

#[global] Instance Tier_eq_dec : EqDecision Tier.
Proof. solve_decision. Defined.

(** An opened file object: its content and the read position. *)
Record OpenFile := mkOpenFile { data : bytes; pos : nat }.

(** [self.file], a FieldFile: the name of the blob in the storage and, once
    it has been opened, the underlying file object ([_file]). *)
Record FieldFile := mkFieldFile { name : option string; _file : option OpenFile }.

(** [bool(self.file)] is [bool(self.file.name)]. *)
Definition FieldFile_bool (f : FieldFile) : bool :=
  match name f with
  | Some n => negb (String.eqb n "")
  | None => false
  end.

(** [FieldFile.closed]: [_file is None or _file.closed]. *)
Definition closed (f : FieldFile) : bool :=
  match _file f with None => true | Some _ => false end.

(** A datetime: aware or naive, as microseconds since 1970-01-01 00:00:00. *)
Record datetime := mkDatetime { aware : bool; micros : Z }.

(** [self.__class__]: [File] itself or a subclass, by name. *)
Inductive Class := File_class | Subclass (cls_name : string).

Record File := mkFile {
  __class__ : Class;
  pk : option Z;
  file : FieldFile;
  _file_size : option Z;
  sha1 : string;
  original_filename : option string;
  uploaded_at : option datetime;
  is_public : bool;
  _old_is_public : bool;
  _file_data_changed_hint : option bool;
  _file_type_plugin_name : option string;
}.

Definition with_pk (v : option Z) (f : File) : File :=
  mkFile (__class__ f) v (file f) (_file_size f) (sha1 f) (original_filename f)
    (uploaded_at f) (is_public f) (_old_is_public f) (_file_data_changed_hint f)
    (_file_type_plugin_name f).
Definition with_file (v : FieldFile) (f : File) : File :=
  mkFile (__class__ f) (pk f) v (_file_size f) (sha1 f) (original_filename f)
    (uploaded_at f) (is_public f) (_old_is_public f) (_file_data_changed_hint f)
    (_file_type_plugin_name f).
Definition with_file_size (v : option Z) (f : File) : File :=
  mkFile (__class__ f) (pk f) (file f) v (sha1 f) (original_filename f)
    (uploaded_at f) (is_public f) (_old_is_public f) (_file_data_changed_hint f)
    (_file_type_plugin_name f).
Definition with_sha1 (v : string) (f : File) : File :=
  mkFile (__class__ f) (pk f) (file f) (_file_size f) v (original_filename f)
    (uploaded_at f) (is_public f) (_old_is_public f) (_file_data_changed_hint f)
    (_file_type_plugin_name f).
Definition with_is_public (v : bool) (f : File) : File :=
  mkFile (__class__ f) (pk f) (file f) (_file_size f) (sha1 f) (original_filename f)
    (uploaded_at f) v (_old_is_public f) (_file_data_changed_hint f)
    (_file_type_plugin_name f).
Definition with_old_is_public (v : bool) (f : File) : File :=
  mkFile (__class__ f) (pk f) (file f) (_file_size f) (sha1 f) (original_filename f)
    (uploaded_at f) (is_public f) v (_file_data_changed_hint f)
    (_file_type_plugin_name f).
Definition with_hint (v : option bool) (f : File) : File :=
  mkFile (__class__ f) (pk f) (file f) (_file_size f) (sha1 f) (original_filename f)
    (uploaded_at f) (is_public f) (_old_is_public f) v
    (_file_type_plugin_name f).
Definition with_plugin_name (v : option string) (f : File) : File :=
  mkFile (__class__ f) (pk f) (file f) (_file_size f) (sha1 f) (original_filename f)
    (uploaded_at f) (is_public f) (_old_is_public f) (_file_data_changed_hint f) v.

(** Truth values of the attributes the code tests. *)
Definition str_bool (s : string) : bool := negb (String.eqb s "").
Definition int_bool (n : option Z) : bool :=
  match n with Some k => negb (k =? 0) | None => false end.

(** ** The world a method runs in *)

(** The operations issued against a storage or an opened file. *)
Inductive Op :=
| OpSize (t : Tier) (n : string)
| OpOpen (t : Tier) (n : string)
| OpSeek (p : nat)
| OpRead (n : N)
| OpSave (t : Tier) (n : string) (content : bytes)
| OpDelete (t : Tier) (n : string)
| OpDeleteThumbnails (t : Tier) (n : string).

Abbreviation Blobs := (gmap string bytes).

Record State := mkState {
  self : File;                        (* the instance the method is called on *)
  storages : Tier → Blobs;            (* the blobs of each storage, by name *)
  thumbnails : Tier → gset string;    (* the sources that have thumbnails *)
  objects : gmap Z File;              (* File.objects: the persisted rows, by pk *)
  fault : Op → option Exn;            (* the operations the backend refuses *)
  log : list (Op * option Exn);       (* the operations issued, with their outcome *)
}.

Definition with_self (v : File) (st : State) : State :=
  mkState v (storages st) (thumbnails st) (objects st) (fault st) (log st).
Definition with_storages (v : Tier → Blobs) (st : State) : State :=
  mkState (self st) v (thumbnails st) (objects st) (fault st) (log st).
Definition with_thumbnails (v : Tier → gset string) (st : State) : State :=
  mkState (self st) (storages st) v (objects st) (fault st) (log st).
Definition with_objects (v : gmap Z File) (st : State) : State :=
  mkState (self st) (storages st) (thumbnails st) v (fault st) (log st).
Definition with_log (v : list (Op * option Exn)) (st : State) : State :=
  mkState (self st) (storages st) (thumbnails st) (objects st) (fault st) v.

(** The operations that read the size or the content of [self.file]. *)
Definition reads_file (e : Op * option Exn) : bool :=
  match e.1 with
  | OpSize _ _ | OpSeek _ | OpRead _ => true
  | _ => false
  end.


(** Replace the entry of one tier. *)
Definition at_tier {A} (t : Tier) (v : A) (f : Tier → A) : Tier → A :=
  λ t', if decide (t' = t) then v else f t'.

(** ** The method monad: state, and exceptions that keep the state *)

Inductive Res (A : Type) :=
| Ok (a : A) (st : State)
| Raise (e : Exn) (st : State).
Arguments Ok {A} a st.
Arguments Raise {A} e st.

Definition M (A : Type) : Type := State → Res A.

Definition ret {A} (a : A) : M A := λ st, Ok a st.
Definition bind {A B} (m : M A) (k : A → M B) : M B :=
  λ st, match m st with
        | Ok a st' => k a st'
        | Raise e st' => Raise e st'
        end.
Definition raise {A} (e : Exn) : M A := λ st, Raise e st.
Definition gets {A} (f : State → A) : M A := λ st, Ok (f st) st.
Definition modify (f : State → State) : M unit := λ st, Ok tt (f st).

Notation "x <- c1 ;; c2" := (bind c1 (λ x, c2))
  (at level 100, c1 at next level, right associativity).
Notation "c1 ;; c2" := (bind c1 (λ _, c2))
  (at level 100, right associativity).

(** [try: body except <catches>: handler]. *)
Definition try_except {A} (body : M A) (catches : Exn → bool) (handler : M A) : M A :=
  λ st, match body st with
        | Raise e st' => if catches e then handler st' else Raise e st'
        | r => r
        end.

(** The state a run ends in, whether it returned or raised. *)
Definition final {A} (r : Res A) : State :=
  match r with Ok _ st => st | Raise _ st => st end.

(** What a run returned, or raised. *)
Definition returned {A} (r : Res A) : option A :=
  match r with Ok a _ => Some a | Raise _ _ => None end.
Definition raised {A} (r : Res A) : option Exn :=
  match r with Ok _ _ => None | Raise e _ => Some e end.

(** Attribute reads and writes on [self]. *)
Definition getattr {A} (f : File → A) : M A := gets (λ st, f (self st)).
Definition setattr (f : File → File) : M unit := modify (λ st, with_self (f (self st)) st).

(** An operation against the outside: refused when the backend faults on it,
    otherwise carried out; logged either way. *)
Definition perform {A} (op : Op) (act : State → Exn + A * State) : M A :=
  λ st, match fault st op with
        | Some e => Raise e (with_log (log st ++ [(op, Some e)]) st)
        | None =>
            match act st with
            | inl e => Raise e (with_log (log st ++ [(op, Some e)]) st)
            | inr (a, st') => Ok a (with_log (log st' ++ [(op, None)]) st')
            end
        end.

(** ** The storages

    The storage API of Django ([Storage.size], [open], [save], [delete]) over
    the blobs of one tier. [save] never overwrites: it picks a free name. *)

Definition get_alternative_name (n : string) (k : nat) : string :=
  n +:+ "_" +:+ pretty k.

Definition get_available_name (store : Blobs) (n : string) : string :=
  default n
    (List.find (λ c, bool_decide (store !! c = None))
       (n :: map (get_alternative_name n) (seq 1 (size store)))).

Definition storage_size (t : Tier) (n : string) : M Z :=
  perform (OpSize t n) (λ st,
    match storages st t !! n with
    | Some c => inr (Z.of_nat (length c), st)
    | None => inl FileNotFoundError
    end).

Definition storage_open (t : Tier) (n : string) : M bytes :=
  perform (OpOpen t n) (λ st,
    match storages st t !! n with
    | Some c => inr (c, st)
    | None => inl FileNotFoundError
    end).

Definition storage_save (t : Tier) (n : string) (content : bytes) : M string :=
  perform (OpSave t n content) (λ st,
    let n' := get_available_name (storages st t) n in
    inr (n', with_storages (at_tier t (<[n' := content]> (storages st t)) (storages st)) st)).

Definition storage_delete (t : Tier) (n : string) : M unit :=
  perform (OpDelete t n) (λ st,
    inr (tt, with_storages (at_tier t (delete n (storages st t)) (storages st)) st)).

(** ** [self.file]

    Size, seek and read are those of Django's FieldFile: they require a
    name, and the blob is opened on first use. *)

Definition tier_of (is_pub : bool) : Tier := if is_pub then public else private.

(** Modelled from the spec: the storage of the field file of
    MultiStorageFileField (filer/fields/multistorage_file.py, not part of
    the sources at hand). The record's tier and the blob name jointly locate
    the blob: [self.file.storage] is the public storage when [is_public]
    holds, the private one otherwise. *)
Definition file_storage : M Tier :=
  p <- getattr is_public ;; ret (tier_of p).

Definition _require_file : M string :=
  f <- getattr file ;;
  match name f with
  | Some n => if FieldFile_bool f then ret n else raise ValueError
  | None => raise ValueError
  end.

Definition file_size : M Z :=
  n <- _require_file ;;
  t <- file_storage ;;
  storage_size t n.

Definition set_open (o : option OpenFile) (f : File) : File :=
  with_file (mkFieldFile (name (file f)) o) f.

Definition file_file : M OpenFile :=
  n <- _require_file ;;
  f <- getattr file ;;
  match _file f with
  | Some o => ret o
  | None =>
      t <- file_storage ;;
      c <- storage_open t n ;;
      setattr (set_open (Some (mkOpenFile c 0))) ;;
      ret (mkOpenFile c 0)
  end.

Definition file_seek (p : nat) : M unit :=
  o <- file_file ;;
  perform (OpSeek p) (λ st,
    inr (tt, with_self (set_open (Some (mkOpenFile (data o) p)) (self st)) st)).

(** At most [n] bytes from the front of [l]. *)
Fixpoint take_N (n : N) (l : bytes) : bytes :=
  match l with
  | [] => []
  | b :: l' => if (n =? 0)%N then [] else b :: take_N (N.pred n) l'
  end.

Definition file_read (n : N) : M bytes :=
  o <- file_file ;;
  perform (OpRead n) (λ st,
    let buf := take_N n (drop (pos o) (data o)) in
    inr (buf, with_self
                (set_open (Some (mkOpenFile (data o) (pos o + length buf))) (self st)) st)).

(** Modelled from the spec: [self.file.delete_thumbnails()] of the field
    file, which invalidates the renditions keyed to the blob in the tier the
    record currently names; it does not touch the blobs. *)
Definition delete_thumbnails : M unit :=
  f <- getattr file ;;
  t <- file_storage ;;
  match name f with
  | Some n =>
      perform (OpDeleteThumbnails t n) (λ st,
        inr (tt, with_thumbnails (at_tier t (thumbnails st t ∖ {[n]}) (thumbnails st)) st))
  | None => ret tt
  end.

(** ** [File.generate_sha1] *)

Definition CHUNK : N := 104857600.

(** What is left to read: decreases with every read that returns bytes. *)
Definition remaining (st : State) : nat :=
  let f := file (self st) in
  match _file f with
  | Some o => length (data o) - pos o
  | None =>
      match name f with
      | Some n => S (length (default [] (storages st (tier_of (is_public (self st))) !! n)))
      | None => 0
      end
  end.

(** The loop of [generate_sha1]:
[[
    while True:
        buf = self.file.read(104857600)
        if not buf:
            break
        sha.update(buf)
]] *)
Equations? hash_loop (sha : hashlib.Hash) (st : State) : Res hashlib.Hash
  by wf (remaining st) lt :=
  hash_loop sha st with inspect (file_read CHUNK st) := {
    | exist _ (Raise e st') _ := Raise e st';
    | exist _ (Ok nil st') _ := Ok sha st';
    | exist _ (Ok (cons b buf) st') Hread := hash_loop (hashlib.update sha (b :: buf)) st' }.
Proof.
  revert Hread.
  unfold remaining, file_read, file_file, _require_file, file_storage, storage_open,
    perform, bind, getattr, setattr, gets, modify, ret, raise.
  intros Hread. repeat (case_match; simplify_eq/=).
  all: repeat match goal with
              | H : _ !! _ = Some _ |- _ => rewrite H
              | H : take_N _ _ = _ :: _ |- _ => rewrite H
              end; simpl; try lia.
  match goal with
  | H : take_N _ (drop ?p ?d) = _ |- _ =>
      pose proof (length_drop d p); destruct (drop p d); simplify_eq/=; lia
  end.
Qed.

Definition generate_sha1 : M unit :=
  let sha := hashlib.sha1 in
  file_seek 0 ;;
  sha <- hash_loop sha ;;
  setattr (with_sha1 (hashlib.hexdigest sha)) ;;
  (* to make sure later operations can read the whole file *)
  file_seek 0.


(** ** The ORM

    [File.objects] is the table of persisted rows, keyed by primary key; a
    row is the instance as it was last saved. [Model.save] inserts or
    updates the row of [self], [Model.delete] removes it and refuses an
    instance without a primary key. *)

Definition next_pk (table : gmap Z File) : Z :=
  1 + map_fold (λ k _ acc, Z.max k acc) 0 table.

Definition Model_save : M unit :=
  λ st, match pk (self st) with
        | Some k => Ok tt (with_objects (<[k := self st]> (objects st)) st)
        | None =>
            let k := next_pk (objects st) in
            let f := with_pk (Some k) (self st) in
            Ok tt (with_objects (<[k := f]> (objects st)) (with_self f st))
        end.

Definition Model_delete : M unit :=
  λ st, match pk (self st) with
        | Some k =>
            Ok tt (with_objects (delete k (objects st)) (with_self (with_pk None (self st)) st))
        | None => Raise ValueError st
        end.

(** [self.filter(sha1=digest)] and [self.exclude(pk=key)]: a queryset is the
    part of the table it selects. *)
Definition filter_sha1 (digest : string) (q : gmap Z File) : gmap Z File :=
  filter (λ kr, sha1 kr.2 = digest) q.

Definition exclude_pk (key : option Z) (q : gmap Z File) : gmap Z File :=
  filter (λ kr, Some kr.1 ≠ key) q.

(** [File.objects.filter(file=n, is_public=p)]. *)
Definition filter_file (n : option string) (p : bool) (q : gmap Z File) : gmap Z File :=
  filter (λ kr, name (file kr.2) = n ∧ is_public kr.2 = p) q.

Definition exists_ (q : gmap Z File) : bool := negb (bool_decide (q = ∅)).

(** The rows of a queryset, in the order the database returns them. *)
Definition all (q : gmap Z File) : list File := (map_to_list q).*2.

(** ** [FileManager] *)


(** [[
    return [i for i in self.exclude(pk=file_obj.pk).filter(sha1=file_obj.sha1)]
]] *)
Definition find_duplicates (table : gmap Z File) (file_obj : File) : list File :=
  all (filter_sha1 (sha1 file_obj) (exclude_pk (pk file_obj) table)).

(** ** [File] *)

Section FileModel.

(** The naming policy of the file field ([generate_filename]), the
    [USE_TZ] setting and the URL resolver for the route named canonical. *)
Context (generate_filename : File → option string → string).
Context (USE_TZ : bool).
Context (reverse_canonical : Z → option Z → Exn + string).

(** [[
    if self._file_data_changed_hint is not None:
        data_changed_hint = self._file_data_changed_hint
        self._file_data_changed_hint = None
        if not data_changed_hint:
            return False
    if post_init and self._file_size and self.sha1:
        return False
    try:
        self._file_size = self.file.size
    except:
        self._file_size = None
    try:
        self.generate_sha1()
    except Exception:
        self.sha1 = ''
    return True
]]
    The two [try] blocks are named after their comments in the source. *)
Definition cache_file_size : M unit :=
  try_except (sz <- file_size ;; setattr (with_file_size (Some sz)))
             (λ _, true)
             (setattr (with_file_size None)).

Definition cache_sha1 : M unit :=
  try_except generate_sha1
             is_Exception
             (setattr (with_sha1 "")).

Definition file_data_changed (post_init : bool) : M bool :=
  hint <- getattr _file_data_changed_hint ;;
  unchanged <- match hint with
               | Some data_changed_hint =>
                   setattr (with_hint None) ;;
                   ret (negb data_changed_hint)
               | None => ret false
               end ;;
  if (unchanged : bool) then ret false else
  size <- getattr _file_size ;;
  digest <- getattr sha1 ;;
  if post_init && int_bool size && str_bool digest then ret false else
  (* cache the file size *)
  cache_file_size ;;
  (* generate SHA1 hash *)
  cache_sha1 ;;
  ret true.

(** [[
    super().__init__(...)
    self._old_is_public = self.is_public
    self.file_data_changed(post_init=True)
]]
    run on an instance whose fields have been set. *)
Definition __init__ : M unit :=
  p <- getattr is_public ;;
  setattr (with_old_is_public p) ;;
  file_data_changed true ;;
  ret tt.

(** Modelled from the spec: the descriptor of MultiStorageFileField
    (filer/fields/multistorage_file.py, not part of the sources at hand).
    Assigning [self.file] installs a field file for the new name, not yet
    opened, and, as the docstring of [file_data_changed] has it, calls the
    callback when the field value is changed. *)
Definition set_file (v : option string) : M unit :=
  previous <- getattr file ;;
  setattr (with_file (mkFieldFile v None)) ;;
  if decide (name previous = v) then ret tt
  else (file_data_changed false ;; ret tt).

(** [[
    src_file_name = self.file.name
    dst_file_name = self._meta.get_field('file').generate_filename(
        self, self.original_filename)
    if self.is_public:
        src_storage = self.file.storages['private']
        dst_storage = self.file.storages['public']
    else:
        src_storage = self.file.storages['public']
        dst_storage = self.file.storages['private']
    self.is_public = not self.is_public
    self.file.delete_thumbnails()
    self.is_public = not self.is_public
    src_file = src_storage.open(src_file_name)
    with src_file.open() as f:
        content_file = ContentFile(f.read())
    self._file_data_changed_hint = False
    self.file = dst_storage.save(dst_file_name, content_file)
    src_storage.delete(src_file_name)
]] *)
Definition _move_file : M unit :=
  f <- getattr file ;;
  let src_file_name := name f in
  s <- gets self ;;
  let dst_file_name := generate_filename s (original_filename s) in
  p <- getattr is_public ;;
  let src_storage := if (p : bool) then private else public in
  let dst_storage := if (p : bool) then public else private in
  (* delete the thumbnail *)
  setattr (λ s, with_is_public (negb (is_public s)) s) ;;
  delete_thumbnails ;;
  setattr (λ s, with_is_public (negb (is_public s)) s) ;;
  (* the whole content of the source blob *)
  content <- match src_file_name with
             | Some n => storage_open src_storage n
             | None => raise TypeError
             end ;;
  (* hint file_data_changed callback that data is actually unchanged *)
  setattr (with_hint (Some false)) ;;
  new_name <- storage_save dst_storage dst_file_name content ;;
  set_file (Some new_name) ;;
  match src_file_name with
  | Some n => storage_delete src_storage n
  | None => raise ValueError
  end.

(** [[
    if self.__class__ == File:
        pass
    elif issubclass(self.__class__, File):
        self._file_type_plugin_name = self.__class__.__name__
    if self._old_is_public != self.is_public and self.pk:
        self._move_file()
        self._old_is_public = self.is_public
    super().save(...)
]] *)
Definition save : M unit :=
  c <- getattr __class__ ;;
  match c with
  | File_class => ret tt
  | Subclass cls_name => setattr (with_plugin_name (Some cls_name))
  end ;;
  old <- getattr _old_is_public ;;
  p <- getattr is_public ;;
  k <- getattr pk ;;
  (if negb (Bool.eqb old p) && int_bool k then
     _move_file ;;
     p <- getattr is_public ;;
     setattr (with_old_is_public p)
   else ret tt) ;;
  Model_save.


(** [self.file.delete(False)] of Django's FieldFile: nothing without a name;
    otherwise the file is closed, the blob is deleted from the storage of
    [self.file] and the field is assigned [None]. *)
Definition FieldFile_delete : M unit :=
  f <- getattr file ;;
  match name f with
  | Some n =>
      if FieldFile_bool f then
        setattr (set_open None) ;;
        t <- file_storage ;;
        storage_delete t n ;;
        set_file None
      else ret tt
  | None => ret tt
  end.

(** [[
    # Delete the model before the file
    super().delete(...)
    # Delete the file if there are no other Files referencing it.
    if not File.objects.filter(file=self.file.name, is_public=self.is_public).exists():
        self.file.delete(False)
]] *)
Definition delete : M unit :=
  Model_delete ;;
  f <- getattr file ;;
  p <- getattr is_public ;;
  table <- gets objects ;;
  if negb (exists_ (filter_file (name f) p table)) then FieldFile_delete
  else ret tt.

(** [[
    if settings.USE_TZ:
        return int((self.uploaded_at - datetime(1970, 1, 1, 1, tzinfo=timezone.utc)).total_seconds())
    else:
        return int((self.uploaded_at - datetime(1970, 1, 1, 1)).total_seconds())
]]
    The epoch is one hour after 1970-01-01 00:00:00; [int] truncates towards
    zero; subtracting a naive from an aware datetime, or from [None], is a
    [TypeError]. *)
Definition canonical_time (s : File) : Exn + Z :=
  match uploaded_at s with
  | Some t =>
      if Bool.eqb (aware t) USE_TZ
      then inr ((micros t - 3600 * 1000000) `quot` 1000000)
      else inl TypeError
  | None => inl TypeError
  end.

(** [[
    url = ''
    if self.file and self.is_public:
        try:
            url = reverse('canonical', kwargs={
                'uploaded_at': self.canonical_time,
                'file_id': self.id
            })
        except NoReverseMatch:
            pass  # No canonical url, return empty string
    return url
]] *)
Definition canonical_url (s : File) : Exn + string :=
  let url := "" in
  if FieldFile_bool (file s) && is_public s then
    match canonical_time s with
    | inr t =>
        match reverse_canonical t (pk s) with
        | inr u => inr u
        | inl NoReverseMatch => inr url
        | inl e => inl e
        end
    | inl NoReverseMatch => inr url
    | inl e => inl e
    end
  else inr url.

End FileModel.

(** ** Delivery backends

    Modelled from the spec: the backends of filer/server/backends (nginx.py,
    xsendfile.py) are not part of the sources at hand; only their tests are.
    Section 4.5 of the specification: both variants never open the blob; the
    proxy variant emits a response carrying a redirect header, under a
    configured name, whose value is a configured internal location followed
    by the path of the blob; the sendfile variant emits a header naming the
    absolute filesystem path of the blob. [save_as] absent or false serves
    inline, true serves an attachment under the original filename, a string
    serves an attachment under that name. *)

Module server.

Record Request := mkRequest { request_headers : gmap string string }.

Record HttpResponse := mkHttpResponse {
  status_code : Z;
  headers : gmap string string;
  content : bytes;
}.

Inductive SaveAs := Inline | Attachment | AttachmentAs (filename : string).

Record ProxyHeaderRedirect := mkProxyHeaderRedirect {
  redirect_header : string;      (* X-Accel-Redirect *)
  internal_location : string;    (* nginx_location *)
}.

Record AcceleratedSendfile := mkAcceleratedSendfile {
  path_header : string;          (* X-Sendfile *)
  location : Tier → string;      (* the root directory of each storage *)
}.

(** The storage-relative path of the blob; empty without a file. *)
Definition blob_path (s : File) : string :=
  match name (file s) with
  | Some n => n
  | None => ""
  end.

Definition default_headers (save_as : SaveAs) (s : File) (h : gmap string string)
  : gmap string string :=
  match save_as with
  | Inline => h
  | Attachment =>
      <["Content-Disposition" :=
          "attachment; filename=" +:+ default "" (original_filename s)]> h
  | AttachmentAs filename =>
      <["Content-Disposition" := "attachment; filename=" +:+ filename]> h
  end.

(** Modelled from the spec: the proxy-redirect backend; it never opens the
    blob and answers with the redirect header only. *)
Definition serve_proxy (srv : ProxyHeaderRedirect) (request : Request) (save_as : SaveAs)
  : M HttpResponse :=
  s <- gets self ;;
  let value := internal_location srv +:+ blob_path s in
  ret (mkHttpResponse 200
         (<[redirect_header srv := value]> (default_headers save_as s ∅)) []).

(** Modelled from the spec: the sendfile backend; it never opens the blob
    and answers with the path header only. *)
Definition serve_sendfile (srv : AcceleratedSendfile) (request : Request) (save_as : SaveAs)
  : M HttpResponse :=
  s <- gets self ;;
  let value := location srv (tier_of (is_public s)) +:+ "/" +:+ blob_path s in
  ret (mkHttpResponse 200
         (<[path_header srv := value]> (default_headers save_as s ∅)) []).

End server.

(** ** A small installation, for running the methods *)

Module sample.

Definition generate_filename (s : File) (filename : option string) : string :=
  "filer/" +:+ default "unnamed" filename.

Definition reverse_canonical (t : Z) (file_id : option Z) : Exn + string :=
  match file_id with
  | Some k => inr ("/filer/canonical/" +:+ pretty t +:+ "/" +:+ pretty k +:+ "/")
  | None => inl NoReverseMatch
  end.

Definition abc : bytes := String.list_byte_of_string "abc".

(** A private record, saved with its digest and size, not opened. *)
Definition record : File :=
  mkFile File_class (Some 7) (mkFieldFile (Some "up/a.txt") None) (Some 3)
    "a9993e364706816aba3e25717850c26c9cd0d89d" (Some "a.txt")
    (Some (mkDatetime true 1700000000123456)) false false None None.

(** The record of an empty upload: size 0 and the digest of no bytes. *)
Definition empty_record : File :=
  with_sha1 "da39a3ee5e6b4b0d3255bfef95601890afd80709" (with_file_size (Some 0) record).

(** Two records whose hashing failed. *)
Definition unhashed_1 : File := with_pk (Some 1) (with_sha1 "" record).
Definition unhashed_2 : File := with_pk (Some 2) (with_sha1 "" record).

(** The private storage holds [content] under the name of [record], if any. *)
Definition store (content : option bytes) (t : Tier) : Blobs :=
  match t, content with
  | private, Some c => {[ "up/a.txt" := c ]}
  | _, _ => ∅
  end.

Definition world (content : option bytes) (flt : Op → option Exn) (s : File)
    (table : gmap Z File) : State :=
  mkState s (store content) (λ _, ∅) table flt [].

Definition no_fault : Op → option Exn := λ _, None.


(** The storages refuse every write. *)
Definition read_only (op : Op) : option Exn :=
  match op with
  | OpSave _ _ _ => Some OSError
  | _ => None
  end.

(** The record has been made public and is saved; the storages refuse the write. *)
Definition st_read_only : State :=
  world (Some abc) read_only (with_is_public true record) {[ 7 := record ]}.

(** The same save on storages that work. *)
Definition st_publish : State :=
  world (Some abc) no_fault (with_is_public true record) {[ 7 := record ]}.



(** A second row names the blob of the record. *)
Definition st_shared : State :=
  world (Some abc) no_fault record {[ 7 := record; 8 := with_pk (Some 8) record ]}.

(** The record is the only one to name its blob. *)
Definition st_last : State :=
  world (Some abc) no_fault record
    {[ 7 := record; 9 := with_pk (Some 9) (with_is_public true record) ]}.

(** A table with two unhashed rows, two rows of one content, one row alone. *)
Definition table : gmap Z File :=
  {[ 1 := unhashed_1; 2 := unhashed_2; 3 := with_pk (Some 3) record;
     4 := with_pk (Some 4) record; 5 := with_pk (Some 5) (with_sha1 "x" record) ]}.

(** The empty upload, its blob present, and its blob gone. *)
Definition st_empty : State := world (Some []) no_fault empty_record {[ 7 := empty_record ]}.
Definition st_empty_missing : State := world None no_fault empty_record {[ 7 := empty_record ]}.

End sample.

(** ** Vocabulary of the properties *)

(** A string of lowercase hexadecimal digits. *)
Definition is_lower_hex (a : ascii) : bool :=
  existsb (Ascii.eqb a) (String.list_ascii_of_string "0123456789abcdef").

Definition lowercase_hex (s : string) : bool :=
  forallb is_lower_hex (String.list_ascii_of_string s).

(** The file of [self] can be read, and its content is [c]: it has a name;
    it is open on [c], or its blob is [c] and the storage lets it be opened;
    seeking to the start and reading a chunk are not refused. *)
Definition readable (st : State) (c : bytes) : Prop :=
  FieldFile_bool (file (self st)) = true
  ∧ match _file (file (self st)) with
    | Some o => data o = c
    | None =>
        ∃ n, name (file (self st)) = Some n
             ∧ storages st (tier_of (is_public (self st))) !! n = Some c
             ∧ fault st (OpOpen (tier_of (is_public (self st))) n) = None
    end
  ∧ fault st (OpSeek 0) = None
  ∧ fault st (OpRead CHUNK) = None.

(** Two states that differ at most by [self] and the log. *)
Definition same_world (st st' : State) : Prop :=
  storages st' = storages st ∧ thumbnails st' = thumbnails st
  ∧ objects st' = objects st ∧ fault st' = fault st.

(** ** The other attributes of [File]

    The columns that the storage code does not touch, and the properties and
    methods of the model that read them. *)

(** [request.user]: its primary key (none for an anonymous user) and the two
    flags the model tests. *)
Record User := mkUser {
  user_pk : option Z;
  is_authenticated : bool;
  is_superuser : bool;
}.

Record HttpRequest := mkHttpRequest { user : User }.

(** [self.name], [self.mime_type], [self.owner] (by primary key) and
    [self.folder], for a folder type [Folder]. *)
Record Columns (Folder : Type) := mkColumns {
  display_name : option string;
  mime_type : string;
  owner : option Z;
  folder : option Folder;
}.
Arguments mkColumns {Folder} _ _ _ _.
Arguments display_name {Folder} _.
Arguments mime_type {Folder} _.
Arguments owner {Folder} _.
Arguments folder {Folder} _.

(** [s.split(sep)] for a separator of one character. *)
Fixpoint str_split (sep : ascii) (s : string) : list string :=
  match s with
  | EmptyString => [EmptyString]
  | String c s' =>
      if Ascii.eqb c sep then EmptyString :: str_split sep s'
      else match str_split sep s' with
           | h :: t => String c h :: t
           | [] => [String c EmptyString]
           end
  end.

(** [sep in s]. *)
Definition str_contains (sep : ascii) (s : string) : bool :=
  existsb (Ascii.eqb sep) (String.list_ascii_of_string s).

(** Python's [IndexError], raised by [list[i]] out of range; the methods
    below return either a value or the exception they raise. *)
Inductive LookupError := IndexError.

(** [[
    return self.mime_type.split('/')[0]
]]
    A cached property: the value is that of the first access. *)
Definition mime_maintype {Folder} (c : Columns Folder) : LookupError + string :=
  match str_split "/" (mime_type c) !! 0%nat with
  | Some x => inr x
  | None => inl IndexError
  end.

(** [[
    return self.mime_type.split('/')[1]
]] *)
Definition mime_subtype {Folder} (c : Columns Folder) : LookupError + string :=
  match str_split "/" (mime_type c) !! 1%nat with
  | Some x => inr x
  | None => inl IndexError
  end.

(** [[
    if self.name in ('', None):
        text = f"{self.original_filename}"
    else:
        text = f"{self.name}"
    return text
]]
    An f-string renders [None] as the four letters of its name. *)
Definition __str__ {Folder} (s : File) (c : Columns Folder) : string :=
  match display_name c with
  | Some n =>
      if String.eqb n "" then default "None" (original_filename s) else n
  | None => default "None" (original_filename s)
  end.

(** [[
    if self.name in ['', None]:
        text = self.original_filename or 'unnamed file'
    else:
        text = self.name
    text = f"{text}"
    return text
]] *)
Definition label {Folder} (s : File) (c : Columns Folder) : string :=
  let fallback :=
    match original_filename s with
    | Some f => if str_bool f then f else "unnamed file"
    | None => "unnamed file"
    end in
  match display_name c with
  | Some n => if String.eqb n "" then fallback else n
  | None => fallback
  end.

(** [[
    return self._file_size or 0
]]
    The property is named [size]; the module keeps the name apart from the
    size of a map. *)
Module property.
Definition size (s : File) : Z :=
  if int_bool (_file_size s) then default 0 (_file_size s) else 0.
End property.

(** [self.logical_folder] is a folder or the virtual folder of unsorted
    files. *)
Inductive LogicalFolder (Folder : Type) :=
| UnsortedImages
| RealFolder (f : Folder).
Arguments UnsortedImages {Folder}.
Arguments RealFolder {Folder} f.

Section FileAttributes.

(** The folder model (filer/models/foldermodels.py, not part of the sources
    at hand) enters through its two methods, the lower-casing of strings
    through [str.lower], the storages through [url] and [path], which may
    raise. The answers of the permission methods are of any type [Answer],
    with the constants [True] and [False] among them. *)
Context {Folder Answer : Type}.
Context (py_True py_False : Answer).
Context (Folder_has_generic_permission : Folder → HttpRequest → string → Answer).
Context (get_ancestors : Folder → list Folder).
Context (lower : string → string).
Context (storage_url storage_path : Tier → string → Exn + string).


(** [[
    user = request.user
    if not user.is_authenticated:
        return False
    elif user.is_superuser:
        return True
    elif user == self.owner:
        return True
    elif self.folder:
        return self.folder.has_generic_permission(request, permission_type)
    else:
        return False
]]
    Two users are equal when they have the same primary key. *)
Definition has_generic_permission (c : Columns Folder) (request : HttpRequest)
    (permission_type : string) : Answer :=
  let u := user request in
  if negb (is_authenticated u) then py_False
  else if is_superuser u then py_True
  else if bool_decide (is_Some (user_pk u) ∧ user_pk u = owner c) then py_True
  else match folder c with
       | Some f => Folder_has_generic_permission f request permission_type
       | None => py_False
       end.

Definition has_edit_permission (c : Columns Folder) (request : HttpRequest) : Answer :=
  has_generic_permission c request "edit".

Definition has_read_permission (c : Columns Folder) (request : HttpRequest) : Answer :=
  has_generic_permission c request "read".

Definition has_add_children_permission (c : Columns Folder) (request : HttpRequest) : Answer :=
  has_generic_permission c request "add_children".

(** [[
    if not self.folder:
        from .virtualitems import UnsortedImages
        return UnsortedImages()
    else:
        return self.folder
]] *)
Definition logical_folder (c : Columns Folder) : LogicalFolder Folder :=
  match folder c with
  | None => UnsortedImages
  | Some f => RealFolder f
  end.

(** [[
    folder_path = []
    if self.folder:
        folder_path.extend(self.folder.get_ancestors())
    folder_path.append(self.logical_folder)
    return folder_path
]] *)
Definition logical_path (c : Columns Folder) : list (LogicalFolder Folder) :=
  let folder_path := [] in
  let folder_path :=
    match folder c with
    | Some f => folder_path ++ map RealFolder (get_ancestors f)
    | None => folder_path
    end in
  folder_path ++ [logical_folder c].

(** [self.file.url] and [self.file.path] of the field file: they require a
    name and ask the storage of the file. *)
Definition file_url : M string :=
  n <- _require_file ;;
  t <- file_storage ;;
  match storage_url t n with
  | inr u => ret u
  | inl e => raise e
  end.

Definition file_path : M string :=
  n <- _require_file ;;
  t <- file_storage ;;
  match storage_path t n with
  | inr u => ret u
  | inl e => raise e
  end.

(** [[
    try:
        r = self.file.url
    except:
        r = ''
    return r
]] *)
Definition url : M string :=
  try_except file_url (λ _, true) (ret "").

(** [[
    try:
        return self.file.path
    except:
        return ""
]] *)
Definition path : M string :=
  try_except file_path (λ _, true) (ret "").

End FileAttributes.

(** [[
    if overwrite:
        raise NotImplementedError
    src_file_name = self.file.name
    storage = self.file.storages['public' if self.is_public else 'private']
    src_file = storage.open(src_file_name)
    src_file.open()
    return storage.save(destination, ContentFile(src_file.read()))
]] *)
Definition _copy_file (destination : string) (overwrite : bool) : M string :=
  if overwrite then raise NotImplementedError
  else
    f <- getattr file ;;
    let src_file_name := name f in
    p <- getattr is_public ;;
    let storage := if (p : bool) then public else private in
    content <- match src_file_name with
               | Some n => storage_open storage n
               | None => raise TypeError
               end ;;
    storage_save storage destination content.


(** Records and requests for running the attributes. *)
Module fixture.

Definition alice : User := mkUser (Some 1) true false.
Definition root : User := mkUser (Some 2) true true.
Definition anonymous : User := mkUser None false false.

(** Folders are numbered; folder 3 lies in 2, which lies in 1. *)
Definition get_ancestors (f : nat) : list nat := seq 1 (f - 1).

(** Folder 1 may be read by anyone who is logged in, and nothing else. *)
Definition Folder_has_generic_permission (f : nat) (request : HttpRequest)
    (permission_type : string) : bool :=
  bool_decide (f = 1%nat) && String.eqb permission_type "read".

Definition plain : Columns nat := mkColumns (Some "") "image/jpeg" None None.
Definition owned : Columns nat := mkColumns (Some "Report") "text/plain" (Some 1) (Some 3%nat).

(** The public storage has URLs and no filesystem paths; the private one
    has paths. *)
Definition storage_url (t : Tier) (n : string) : Exn + string :=
  match t with
  | public => inr ("/media/" +:+ n)
  | private => inr ("/smedia/" +:+ n)
  end.

Definition storage_path (t : Tier) (n : string) : Exn + string :=
  match t with
  | public => inl NotImplementedError
  | private => inr ("/srv/private/" +:+ n)
  end.

(** A public record that was never saved: no primary key, no upload time. *)
Definition unsaved_public : File :=
  mkFile File_class None (mkFieldFile (Some "up/a.txt") None) None "" (Some "a.txt")
    None true true None None.


(** The thumbnails cannot be deleted. *)
Definition thumbnails_fail (op : Op) : option Exn :=
  match op with
  | OpDeleteThumbnails _ _ => Some OSError
  | _ => None
  end.

Definition st_thumbnails_fail : State :=
  sample.world (Some sample.abc) thumbnails_fail (with_is_public true sample.record)
    {[ 7 := sample.record ]}.

(** The storage refuses to delete. *)
Definition delete_fails (op : Op) : option Exn :=
  match op with
  | OpDelete _ _ => Some OSError
  | _ => None
  end.

Definition st_delete_fails : State :=
  sample.world (Some sample.abc) delete_fails sample.record {[ 7 := sample.record ]}.

End fixture.


(** What hashing and the callback leave alone: the storages, the
    thumbnails, the table, the faults, and the name, tier, key and previous
    tier of the record. *)
Definition outside_of_hashing (st : State) :=
  (storages st, thumbnails st, objects st, fault st,
   (name (file (self st)), is_public (self st), pk (self st), _old_is_public (self st))).

(** * Properties *)

(** ** Duplicates *)








(** C3. [find_duplicates] does not set the empty digest apart: for a record
    whose digest is empty it returns the other record whose digest is empty
    too. *)
Theorem find_duplicates_matches_empty_digest :
  sha1 sample.unhashed_1 = "" ∧
  find_duplicates {[ 1 := sample.unhashed_1; 2 := sample.unhashed_2 ]} sample.unhashed_1
  = [sample.unhashed_2].
Proof. split; vm_compute; reflexivity. Qed.

(** ** The canonical URL *)

(** C10. For a record that is not public or has no file, [canonical_url]
    returns the empty string, whatever the resolver of the canonical route
    does; a URL that is not empty comes from a public record with a file. *)
Theorem canonical_url_only_public_with_file (USE_TZ : bool)
    (reverse_canonical : Z → option Z → Exn + string) (s : File) :
  (is_public s = false ∨ FieldFile_bool (file s) = false →
   canonical_url USE_TZ reverse_canonical s = inr "")
  ∧ (∀ u, canonical_url USE_TZ reverse_canonical s = inr u → u ≠ "" →
          is_public s = true ∧ FieldFile_bool (file s) = true).
Proof.
  unfold canonical_url. split.
  - intros [-> | ->]; [by rewrite andb_false_r | done].
  - intros u Hu Hne.
    destruct (FieldFile_bool (file s)), (is_public s); simpl in Hu; try done;
      by inversion Hu.
Qed.

Lemma canonical_url_witness :
  canonical_url true sample.reverse_canonical sample.record = inr ""
  ∧ canonical_url true sample.reverse_canonical (with_is_public true sample.record)
    = inr "/filer/canonical/1699996400/7/".
Proof.
  split.
  - apply (proj1 (canonical_url_only_public_with_file true sample.reverse_canonical
                    sample.record)).
    left. reflexivity.
  - vm_compute. reflexivity.
Defined.

(** ** Delivery *)

(** C5. Spec-modelled backends: serving through the proxy-redirect or the
    sendfile backend returns a response, for any request and any record in
    any world (the blob may be absent); the response carries the configured
    header; the run issues no operation, and the file of the record is as
    closed afterwards as it was before: the world is left as it was. *)
Theorem header_backends_do_no_io (proxy : server.ProxyHeaderRedirect)
    (sendfile : server.AcceleratedSendfile) (request : server.Request)
    (save_as : server.SaveAs) (st : State) :
  (∃ resp,
      server.serve_proxy proxy request save_as st = Ok resp st
      ∧ server.headers resp !! server.redirect_header proxy
        = Some (server.internal_location proxy +:+ server.blob_path (self st)))
  ∧ (∃ resp,
      server.serve_sendfile sendfile request save_as st = Ok resp st
      ∧ server.headers resp !! server.path_header sendfile
        = Some (server.location sendfile (tier_of (is_public (self st)))
                +:+ "/" +:+ server.blob_path (self st)))
  ∧ log (final (server.serve_proxy proxy request save_as st)) = log st
  ∧ log (final (server.serve_sendfile sendfile request save_as st)) = log st
  ∧ closed (file (self (final (server.serve_proxy proxy request save_as st))))
    = closed (file (self st))
  ∧ closed (file (self (final (server.serve_sendfile sendfile request save_as st))))
    = closed (file (self st)).
Proof.
  split_and!; try reflexivity.
  all: eexists; (split; [reflexivity|]); simpl; apply lookup_insert_eq.
Qed.

(** ** The data-changed callback *)

Ltac unfold_monad :=
  unfold getattr, setattr in *;
  unfold bind, ret, raise, gets, modify, try_except, perform in *;
  cbn beta iota in *.

(** With the hint set to [False] the callback clears the hint and returns
    [False]: nothing else changes and no operation is issued. *)
Lemma file_data_changed_hint_false (post_init : bool) (st : State) :
  _file_data_changed_hint (self st) = Some false →
  file_data_changed post_init st = Ok false (with_self (with_hint None (self st)) st).
Proof.
  intros H. unfold file_data_changed. unfold_monad. rewrite H. reflexivity.
Qed.

(** X3. Called from [__init__] on a record whose size is not zero and whose
    digest is not empty, the callback returns [False] and at most clears the
    hint. *)
Lemma file_data_changed_post_init_skips (st : State) :
  int_bool (_file_size (self st)) = true →
  str_bool (sha1 (self st)) = true →
  ∃ st', file_data_changed true st = Ok false st'
         ∧ sha1 (self st') = sha1 (self st)
         ∧ _file_size (self st') = _file_size (self st)
         ∧ file (self st') = file (self st)
         ∧ log st' = log st.
Proof.
  intros Hsize Hsha. unfold file_data_changed. unfold_monad.
  destruct (_file_data_changed_hint (self st)) as [[|]|]; simpl;
    rewrite ?Hsize, ?Hsha; simpl; eexists; (split; [reflexivity|]); done.
Qed.

(** C9. A record read back from the database with the size 0 of an empty
    file and its digest: [__init__] reads the size and hashes again, the
    callback it runs returning [True]; when the blob is gone the stored
    digest and size are reset as well. *)
Theorem file_data_changed_post_init_zero_size :
  _file_size sample.empty_record = Some 0
  ∧ sha1 sample.empty_record = "da39a3ee5e6b4b0d3255bfef95601890afd80709"
  ∧ returned (file_data_changed true sample.st_empty) = Some true
  ∧ log (final (__init__ sample.st_empty))
    = [(OpSize private "up/a.txt", None); (OpOpen private "up/a.txt", None);
       (OpSeek 0, None); (OpRead CHUNK, None); (OpSeek 0, None)]
  ∧ returned (file_data_changed true sample.st_empty_missing) = Some true
  ∧ sha1 (self (final (__init__ sample.st_empty_missing))) = ""
  ∧ _file_size (self (final (__init__ sample.st_empty_missing))) = None.
Proof. repeat split; vm_compute; reflexivity. Qed.

(** One turn of the loop of [generate_sha1]. *)
Lemma hash_loop_step (sha : hashlib.Hash) (st : State) :
  hash_loop sha st =
  match file_read CHUNK st with
  | Raise e st' => Raise e st'
  | Ok [] st' => Ok sha st'
  | Ok (b :: buf) st' => hash_loop (hashlib.update sha (b :: buf)) st'
  end.
Proof.
  funelim (hash_loop sha st);
    match goal with H : file_read _ _ = _ |- _ => rewrite H end; reflexivity.
Qed.

(** What every read preserves, the loop preserves. *)
Lemma hash_loop_invariant (P : State → Prop) :
  (∀ st, P st → P (final (file_read CHUNK st))) →
  ∀ sha st, P st → P (final (hash_loop sha st)).
Proof.
  intros Hstep sha st. funelim (hash_loop sha st).
  all: intros HP.
  all: match goal with
       | H : file_read _ _ = _ |- _ => pose proof (Hstep _ HP) as HP'; rewrite H in HP'
       end; simpl in HP'.
  - exact HP'.
  - match goal with IH : ∀ P : State → Prop, _ |- _ => exact (IH P Hstep HP') end.
  - exact HP'.
Qed.

(** Case analysis on a scrutinee that holds no other case analysis. *)
Ltac case_inner :=
  match goal with
  | |- context [match ?x with _ => _ end] =>
      lazymatch x with
      | context [match _ with _ => _ end] => fail
      | _ => destruct x eqn:?
      end
  end.

Ltac run_file_ops :=
  unfold file_seek, file_read, file_file, file_size, _require_file, file_storage,
    storage_open, storage_size in *;
  unfold_monad.









(** ** The visibility transition *)

Ltac run_move :=
  unfold save, _move_file, set_file, delete_thumbnails, file_storage, Model_save,
    storage_open, storage_save, storage_delete in *;
  unfold_monad.

(** C4. The move between the storages leaves the digest and the cached size
    of the record as they were, however the run ends, and issues no
    operation that reads the size or the content of the file; so does a
    [save] as a whole. The callback that the move triggers with the hint set
    to [False] returns [False] and changes nothing but the hint. *)
Theorem visibility_transition_keeps_digest
    (generate_filename : File → option string → string) (st : State) :
  sha1 (self (final (_move_file generate_filename st))) = sha1 (self st)
  ∧ _file_size (self (final (_move_file generate_filename st))) = _file_size (self st)
  ∧ List.filter reads_file (log (final (_move_file generate_filename st)))
    = List.filter reads_file (log st)
  ∧ sha1 (self (final (save generate_filename st))) = sha1 (self st)
  ∧ _file_size (self (final (save generate_filename st))) = _file_size (self st)
  ∧ List.filter reads_file (log (final (save generate_filename st)))
    = List.filter reads_file (log st)
  ∧ (∀ post_init st0,
        _file_data_changed_hint (self st0) = Some false →
        file_data_changed post_init st0
        = Ok false (with_self (with_hint None (self st0)) st0)).
Proof.
  split_and!.
  7: { intros. by apply file_data_changed_hint_false. }
  all: run_move.
  all: repeat first [ rewrite file_data_changed_hint_false by done
                    | case_inner; simplify_eq/= ].
  all: rewrite ?List.filter_app; simpl; rewrite ?app_nil_r; done.
Qed.

Lemma visibility_transition_keeps_digest_witness :
  sha1 (self (final (save sample.generate_filename sample.st_publish)))
  = "a9993e364706816aba3e25717850c26c9cd0d89d"
  ∧ file_data_changed false
      (with_self (with_hint (Some false) sample.record) sample.st_publish)
    = Ok false (with_self (with_hint None sample.record) sample.st_publish).
Proof.
  destruct (visibility_transition_keeps_digest sample.generate_filename sample.st_publish)
    as (_ & _ & _ & Hsha & _ & _ & Hcb).
  split.
  - rewrite Hsha. reflexivity.
  - apply (Hcb false (with_self (with_hint (Some false) sample.record) sample.st_publish)).
    reflexivity.
Defined.




(** The move carried out on storages that work. *)
Example save_publishes :
  returned (save sample.generate_filename sample.st_publish) = Some tt
  ∧ log (final (save sample.generate_filename sample.st_publish))
    = [(OpDeleteThumbnails private "up/a.txt", None); (OpOpen private "up/a.txt", None);
       (OpSave public "filer/a.txt" sample.abc, None); (OpDelete private "up/a.txt", None)]
  ∧ storages (final (save sample.generate_filename sample.st_publish)) public !! "filer/a.txt"
    = Some sample.abc
  ∧ storages (final (save sample.generate_filename sample.st_publish)) private !! "up/a.txt"
    = None
  ∧ sha1 (self (final (save sample.generate_filename sample.st_publish)))
    = sha1 sample.record.
Proof. repeat split; vm_compute; reflexivity. Qed.

(** ** Deletion *)

(** Without a file name, size and digest raise [ValueError] before any
    operation is issued, and the two blocks of the callback absorb it. *)
Lemma cache_file_size_no_file (st : State) :
  name (file (self st)) = None →
  cache_file_size st = Ok tt (with_self (with_file_size None (self st)) st).
Proof.
  intros Hn. unfold cache_file_size. run_file_ops. by rewrite Hn.
Qed.

Lemma cache_sha1_no_file (st : State) :
  name (file (self st)) = None →
  cache_sha1 st = Ok tt (with_self (with_sha1 "" (self st)) st).
Proof.
  intros Hn. unfold cache_sha1, generate_sha1. run_file_ops. by rewrite Hn.
Qed.

(** Without a file name the callback touches neither the storages, nor the
    table, nor the log, and returns. *)
Lemma file_data_changed_no_file (post_init : bool) (st : State) :
  name (file (self st)) = None →
  ∃ b st', file_data_changed post_init st = Ok b st'
           ∧ storages st' = storages st ∧ objects st' = objects st ∧ log st' = log st.
Proof.
  intros Hn. unfold file_data_changed. unfold_monad.
  repeat first [ rewrite cache_file_size_no_file by done
               | rewrite cache_sha1_no_file by done
               | case_inner; simplify_eq/= ]; eauto 10.
Qed.

(** The rows of the table that name a blob, once the row [k] is removed:
    the rows under another key. *)
Lemma filter_file_delete_exists (n : option string) (p : bool) (k : Z) (table : gmap Z File) :
  exists_ (filter_file n p (base.delete k table)) = true ↔
  ∃ k' f, k' ≠ k ∧ table !! k' = Some f ∧ name (file f) = n ∧ is_public f = p.
Proof.
  unfold exists_, filter_file. rewrite negb_true_iff, bool_decide_eq_false. split.
  - intros Hne. apply map_choose in Hne as (k' & f & Hf).
    apply map_lookup_filter_Some in Hf as [Hf [Hn Hp]]. simpl in *.
    apply lookup_delete_Some in Hf as [Hk Hf]. eauto 10.
  - intros (k' & f & Hk & Hf & Hn & Hp) Hempty.
    assert (Hin : filter (λ kr : Z * File, name (file kr.2) = n ∧ is_public kr.2 = p)
                    (base.delete k table) !! k' = Some f).
    { apply map_lookup_filter_Some. split; [|done].
      apply lookup_delete_Some. done. }
    rewrite Hempty in Hin. by rewrite lookup_empty in Hin.
Qed.

(** C2. Deleting a persisted record that has a file, on a storage that
    carries the deletion out: the row of the record is removed first; the
    guard is evaluated on the table without that row, so it finds exactly
    the other rows that name the same blob in the same tier. When there is
    one, no operation is issued and the storages are as they were; when
    there is none, the one operation issued is the deletion of the blob, and
    the storages differ only by that blob. *)
Theorem delete_guards_shared_blob (st : State) (k : Z) (n : string) :
  pk (self st) = Some k →
  name (file (self st)) = Some n →
  n ≠ "" →
  let p := is_public (self st) in
  fault st (OpDelete (tier_of p) n) = None →
  let shared := exists_ (filter_file (Some n) p (base.delete k (objects st))) in
  let r := delete st in
  returned r = Some tt
  ∧ objects (final r) = base.delete k (objects st)
  ∧ (shared = true ↔
     ∃ k' f, k' ≠ k ∧ objects st !! k' = Some f
             ∧ name (file f) = Some n ∧ is_public f = p)
  ∧ (shared = true → storages (final r) = storages st ∧ log (final r) = log st)
  ∧ (shared = false →
     storages (final r)
     = at_tier (tier_of p) (base.delete n (storages st (tier_of p))) (storages st)
     ∧ log (final r) = log st ++ [(OpDelete (tier_of p) n, None)]).
Proof.
  intros Hk Hn Hne p Hfault shared r.
  assert (Hbool : FieldFile_bool (file (self st)) = true).
  { unfold FieldFile_bool. rewrite Hn. apply negb_true_iff, String.eqb_neq. done. }
  assert (Hr : (shared = true ∧ r = Ok tt (with_objects (base.delete k (objects st))
                                              (with_self (with_pk None (self st)) st)))
               ∨ (shared = false ∧ ∃ st', r = Ok tt st'
                    ∧ storages st'
                      = at_tier (tier_of p) (base.delete n (storages st (tier_of p))) (storages st)
                    ∧ objects st' = base.delete k (objects st)
                    ∧ log st' = log st ++ [(OpDelete (tier_of p) n, None)])).
  { subst r shared p. unfold delete, Model_delete, FieldFile_delete, set_file, file_storage,
      storage_delete. unfold_monad. rewrite Hk. simpl. rewrite Hn.
    destruct (exists_ _) eqn:Hshared; simpl; [left; done|right].
    split; [done|]. rewrite Hn, Hbool. simpl. rewrite Hfault. simpl. rewrite ?Hn.
    destruct (decide (Some n = None)) as [|_]; [done|].
    match goal with
    | |- context [file_data_changed false ?s] =>
        destruct (file_data_changed_no_file false s eq_refl)
          as (b & st' & -> & Hs & Ho & Hl)
    end.
    eexists. split; [reflexivity|]. rewrite Hs, Ho, Hl. done. }
  split_and!.
  - destruct Hr as [[_ ->] | [_ (st' & -> & _)]]; done.
  - destruct Hr as [[_ ->] | [_ (st' & -> & _ & Ho & _)]]; done.
  - apply filter_file_delete_exists.
  - intros Hs. destruct Hr as [[_ ->] | [Hs' _]]; [done | congruence].
  - intros Hs. destruct Hr as [[Hs' _] | [_ (st' & -> & Hst & _ & Hl)]]; [congruence | done].
Qed.

Lemma delete_guards_shared_blob_witness :
  (storages (final (delete sample.st_shared)) private !! "up/a.txt" = Some sample.abc
   ∧ objects (final (delete sample.st_shared)) !! 7 = None)
  ∧ (storages (final (delete sample.st_last)) private !! "up/a.txt" = None
     ∧ objects (final (delete sample.st_last)) !! 7 = None).
Proof.
  assert (Hne : "up/a.txt" ≠ "") by discriminate.
  destruct (delete_guards_shared_blob sample.st_shared 7 "up/a.txt" eq_refl eq_refl Hne eq_refl)
    as (_ & Ho1 & _ & Hkeep & _).
  destruct (delete_guards_shared_blob sample.st_last 7 "up/a.txt" eq_refl eq_refl Hne eq_refl)
    as (_ & Ho2 & _ & _ & Hgone).
  split; split.
  - destruct (Hkeep ltac:(vm_compute; reflexivity)) as [-> _]. vm_compute. reflexivity.
  - rewrite Ho1. apply lookup_delete_eq.
  - destruct (Hgone ltac:(vm_compute; reflexivity)) as [-> _]. vm_compute. reflexivity.
  - rewrite Ho2. apply lookup_delete_eq.
Defined.

(** ** Hashing *)

Lemma take_N_nil (n : N) (l : bytes) : (0 < n)%N → take_N n l = [] → l = [].
Proof.
  intros Hn. destruct l as [|b l]; [done|]. simpl.
  destruct (N.eqb_spec n 0); [lia | done].
Qed.

Lemma take_N_drop (n : N) (l : bytes) :
  take_N n l ++ drop (length (take_N n l)) l = l.
Proof.
  revert n. induction l as [|b l IH]; intros n; [done|]. simpl.
  destruct (n =? 0)%N; simpl; [done|]. by rewrite IH.
Qed.

Lemma FieldFile_bool_name (f : FieldFile) :
  FieldFile_bool f = true → ∃ n, name f = Some n.
Proof. unfold FieldFile_bool. destruct (name f); [eauto | done]. Qed.

(** A read on an open file. *)
Lemma file_read_open (n : N) (st : State) (c : bytes) (p : nat) :
  FieldFile_bool (file (self st)) = true →
  _file (file (self st)) = Some (mkOpenFile c p) →
  fault st (OpRead n) = None →
  file_read n st
  = Ok (take_N n (drop p c))
       (with_log (log st ++ [(OpRead n, None)])
          (with_self
             (set_open (Some (mkOpenFile c (p + length (take_N n (drop p c))))) (self st))
             st)).
Proof.
  intros Hb Ho Hf. destruct (FieldFile_bool_name _ Hb) as [nm Hnm].
  run_file_ops. rewrite Hnm, Hb. simpl. rewrite Ho. simpl. rewrite Hf. reflexivity.
Qed.

(** The loop on an open file: it returns the hash object fed with all that
    was left to read, leaves the position at the end, and has issued only
    reads of one chunk. *)
Lemma hash_loop_reads (m : nat) :
  ∀ (sha : hashlib.Hash) (st : State) (c : bytes) (p : nat),
    (length c - p ≤ m)%nat →
    (p ≤ length c)%nat →
    FieldFile_bool (file (self st)) = true →
    _file (file (self st)) = Some (mkOpenFile c p) →
    fault st (OpRead CHUNK) = None →
    ∃ st' k,
      hash_loop sha st = Ok (hashlib.mkHash (hashlib.fed sha ++ drop p c)) st'
      ∧ self st' = set_open (Some (mkOpenFile c (length c))) (self st)
      ∧ log st' = log st ++ replicate (S k) (OpRead CHUNK, None)
      ∧ same_world st st'.
Proof.
  induction m as [m IH] using lt_wf_ind.
  intros sha st c p Hm Hp Hb Ho Hf.
  rewrite hash_loop_step, (file_read_open CHUNK st c p Hb Ho Hf).
  pose proof (take_N_drop CHUNK (drop p c)) as Hsplit.
  pose proof (length_drop c p) as Hlen.
  destruct (take_N CHUNK (drop p c)) as [|b buf] eqn:Hbuf.
  - apply take_N_nil in Hbuf; [|done].
    eexists _, 0%nat. split_and!.
    + rewrite Hbuf, app_nil_r. by destruct sha.
    + simpl. rewrite Hbuf in Hlen. simpl in Hlen.
      replace (p + 0)%nat with (length c) by lia. done.
    + done.
    + done.
  - set (st1 := with_log _ _).
    assert (Hlen' : (S (length buf) ≤ length c - p)%nat).
    { rewrite <- Hlen, <- Hsplit, length_app. simpl. lia. }
    destruct (IH (length c - (p + length (b :: buf)))%nat ltac:(simpl; lia)
                (hashlib.update sha (b :: buf)) st1 c (p + length (b :: buf))%nat)
      as (st' & k & Hrun & Hself & Hlog & Hw).
    + lia.
    + simpl. lia.
    + done.
    + done.
    + done.
    + exists st', (S k). split_and!.
      * rewrite Hrun. f_equal. f_equal. unfold hashlib.update. simpl hashlib.fed.
        rewrite <- app_assoc. f_equal.
        rewrite <- drop_drop. exact Hsplit.
      * rewrite Hself. done.
      * rewrite Hlog. subst st1. simpl. by rewrite <- app_assoc.
      * done.
Qed.

(** Seeking to the start of an open file. *)
Lemma file_seek_open (st : State) (c : bytes) (p : nat) :
  FieldFile_bool (file (self st)) = true →
  _file (file (self st)) = Some (mkOpenFile c p) →
  fault st (OpSeek 0) = None →
  file_seek 0 st
  = Ok tt (with_log (log st ++ [(OpSeek 0, None)])
             (with_self (set_open (Some (mkOpenFile c 0)) (self st)) st)).
Proof.
  intros Hb Ho Hf. destruct (FieldFile_bool_name _ Hb) as [nm Hnm].
  run_file_ops. rewrite Hnm, Hb. simpl. rewrite Ho. simpl. rewrite Hf. reflexivity.
Qed.

(** Seeking to the start of a readable file opens it if need be. *)
Lemma file_seek_readable (st : State) (c : bytes) :
  readable st c →
  ∃ st' pre,
    file_seek 0 st = Ok tt st'
    ∧ self st' = set_open (Some (mkOpenFile c 0)) (self st)
    ∧ log st' = log st ++ pre ++ [(OpSeek 0, None)]
    ∧ (pre = [] ∨ ∃ n, pre = [(OpOpen (tier_of (is_public (self st))) n, None)])
    ∧ same_world st st'.
Proof.
  intros (Hb & Hc & Hseek & _).
  destruct (_file (file (self st))) as [[c' p]|] eqn:Ho.
  - simpl in Hc. subst c'. rewrite (file_seek_open st c p Hb Ho Hseek).
    eexists _, []. split_and!; try done. by left.
  - destruct Hc as (n & Hn & Hblob & Hopen).
    run_file_ops. rewrite Hn, Hb. simpl. rewrite Ho. simpl.
    rewrite Hopen, Hblob. simpl. rewrite Hseek.
    eexists _, [_]. split_and!; try done.
    + simpl. by rewrite <- app_assoc.
    + right. eauto.
Qed.

(** [generate_sha1] on a readable file. *)
Lemma generate_sha1_readable (st : State) (c : bytes) :
  readable st c →
  ∃ st' pre k,
    generate_sha1 st = Ok tt st'
    ∧ self st'
      = with_sha1 (hashlib.hexdigest (hashlib.update hashlib.sha1 c))
          (set_open (Some (mkOpenFile c 0)) (self st))
    ∧ log st'
      = log st ++ pre ++ [(OpSeek 0, None)] ++ replicate (S k) (OpRead CHUNK, None)
               ++ [(OpSeek 0, None)]
    ∧ (pre = [] ∨ ∃ n, pre = [(OpOpen (tier_of (is_public (self st))) n, None)])
    ∧ same_world st st'.
Proof.
  intros Hr. pose proof Hr as (Hb & _ & Hseek & Hread).
  destruct (file_seek_readable st c Hr) as (st1 & pre & Hrun1 & Hself1 & Hlog1 & Hpre & Hw1).
  destruct Hw1 as (Hs1 & Ht1 & Ho1 & Hf1).
  destruct (hash_loop_reads (length c - 0) hashlib.sha1 st1 c 0) as
    (st2 & k & Hrun2 & Hself2 & Hlog2 & Hs2 & Ht2 & Ho2 & Hf2).
  { done. } { lia. } { by rewrite Hself1. } { by rewrite Hself1. } { by rewrite Hf1. }
  unfold generate_sha1. unfold_monad. rewrite Hrun1, Hrun2.
  erewrite (file_seek_open _ c (length c)).
  - eexists _, pre, k. split_and!.
    + reflexivity.
    + simpl. rewrite Hself2, Hself1. reflexivity.
    + simpl. rewrite Hlog2, Hlog1. by rewrite <- !app_assoc.
    + done.
    + repeat split; simpl; congruence.
  - simpl. rewrite Hself2, Hself1. done.
  - simpl. rewrite Hself2, Hself1. done.
  - simpl. rewrite Hf2, Hf1. done.
Qed.

(** A file that was hashed is readable again, from the start. *)
Lemma readable_after (st st' : State) (c : bytes) (d : string) :
  readable st c →
  self st' = with_sha1 d (set_open (Some (mkOpenFile c 0)) (self st)) →
  same_world st st' →
  readable st' c.
Proof.
  intros (Hb & _ & Hseek & Hread) Hself (_ & _ & _ & Hf).
  unfold readable. rewrite Hself, Hf. simpl. done.
Qed.

(** The digest is forty lowercase hexadecimal digits. *)
Lemma hex_digit_lower (x : Z) : is_lower_hex (hashlib.hex_digit (Z.land x 15)) = true.
Proof.
  assert (H : 0 ≤ Z.land x 15 < 16).
  { change 15 with (Z.ones 4). rewrite Z.land_ones by lia. apply Z.mod_pos_bound. lia. }
  set (v := Z.land x 15) in *.
  assert (Hv : v = 0 ∨ v = 1 ∨ v = 2 ∨ v = 3 ∨ v = 4 ∨ v = 5 ∨ v = 6 ∨ v = 7 ∨ v = 8
               ∨ v = 9 ∨ v = 10 ∨ v = 11 ∨ v = 12 ∨ v = 13 ∨ v = 14 ∨ v = 15) by lia.
  repeat destruct Hv as [-> | Hv]; try reflexivity. subst v. rewrite Hv. reflexivity.
Qed.

Lemma hex32_lower (w : Z) :
  forallb is_lower_hex (hashlib.hex32 w) = true ∧ length (hashlib.hex32 w) = 8%nat.
Proof.
  unfold hashlib.hex32. cbn [map forallb length]. rewrite !hex_digit_lower. done.
Qed.

Lemma string_of_list_ascii_length (l : list ascii) :
  String.length (String.string_of_list_ascii l) = length l.
Proof. induction l as [|a l IH]; simpl; [done | by rewrite IH]. Qed.

Lemma hexdigest_lowercase_hex (h : hashlib.Hash) :
  lowercase_hex (hashlib.hexdigest h) = true ∧ String.length (hashlib.hexdigest h) = 40%nat.
Proof.
  unfold lowercase_hex, hashlib.hexdigest, hashlib.digest_words.
  rewrite String.list_ascii_of_string_of_list_ascii, string_of_list_ascii_length.
  destruct (hashlib.process _ _ _) as [[[[h0 h1] h2] h3] h4].
  cbn [concat map]. rewrite !forallb_app, !length_app.
  destruct (hex32_lower h0) as [-> ->], (hex32_lower h1) as [-> ->],
    (hex32_lower h2) as [-> ->], (hex32_lower h3) as [-> ->], (hex32_lower h4) as [-> ->].
  split; reflexivity.
Qed.

(** C7. On a file that can be read and whose content is [c],
    [generate_sha1] returns; what it issued is a seek to position 0 (after
    opening the file if it was closed), then reads of 104857600 bytes each,
    then a seek to position 0; [sha1] is the SHA-1 of the whole of [c], as
    forty lowercase hexadecimal digits; the file is left open on [c] at
    position 0; and a second call on the result returns the same digest and
    again leaves the position at 0. *)
Theorem generate_sha1_hashes_whole_content (st : State) (c : bytes) :
  readable st c →
  ∃ st' pre k,
    generate_sha1 st = Ok tt st'
    ∧ log st'
      = log st ++ pre ++ [(OpSeek 0, None)]
               ++ replicate (S k) (OpRead 104857600, None) ++ [(OpSeek 0, None)]
    ∧ (pre = [] ∨ ∃ n, pre = [(OpOpen (tier_of (is_public (self st))) n, None)])
    ∧ sha1 (self st') = hashlib.hexdigest (hashlib.update hashlib.sha1 c)
    ∧ lowercase_hex (sha1 (self st')) = true
    ∧ String.length (sha1 (self st')) = 40%nat
    ∧ _file (file (self st')) = Some (mkOpenFile c 0)
    ∧ ∃ st'',
        generate_sha1 st' = Ok tt st''
        ∧ sha1 (self st'') = sha1 (self st')
        ∧ _file (file (self st'')) = Some (mkOpenFile c 0).
Proof.
  intros Hr.
  destruct (generate_sha1_readable st c Hr) as (st' & pre & k & Hrun & Hself & Hlog & Hpre & Hw).
  pose proof (readable_after st st' c _ Hr Hself Hw) as Hr'.
  destruct (generate_sha1_readable st' c Hr') as (st'' & _ & _ & Hrun' & Hself' & _).
  destruct (hexdigest_lowercase_hex (hashlib.update hashlib.sha1 c)) as [Hhex Hlen].
  set (d := hashlib.hexdigest (hashlib.update hashlib.sha1 c)) in *.
  exists st', pre, k. rewrite Hself. cbn [sha1 with_sha1 file set_open with_file _file].
  split_and!; try done.
  exists st''. rewrite Hself'. done.
Qed.

Lemma generate_sha1_hashes_whole_content_witness :
  returned (generate_sha1 sample.st_shared) = Some tt
  ∧ sha1 (self (final (generate_sha1 sample.st_shared)))
    = "a9993e364706816aba3e25717850c26c9cd0d89d"
  ∧ _file (file (self (final (generate_sha1 sample.st_shared))))
    = Some (mkOpenFile sample.abc 0).
Proof.
  assert (Hr : readable sample.st_shared sample.abc).
  { split; [reflexivity|]. split; [|split; reflexivity].
    exists "up/a.txt". split; [reflexivity|]. split; [|reflexivity].
    vm_compute. reflexivity. }
  destruct (generate_sha1_hashes_whole_content sample.st_shared sample.abc Hr)
    as (st' & pre & k & Hrun & _ & _ & Hsha & _ & _ & Hfile & _).
  rewrite Hrun. cbn [returned final]. split; [reflexivity|]. split; [|exact Hfile].
  rewrite Hsha. vm_compute. reflexivity.
Defined.

(** ** The storages *)

Lemma string_app_empty_r (n : string) : n +:+ "" = n.
Proof.
  induction n as [|a n IH]; [done|].
  change (String a (n +:+ "") = String a n). by f_equal.
Qed.

Lemma get_alternative_name_ne (n : string) (k : nat) : get_alternative_name n k ≠ n.
Proof.
  unfold get_alternative_name. intros H.
  rewrite <- (string_app_empty_r n) in H at 2.
  apply (inj (String.append n)) in H. discriminate.
Qed.

Lemma get_alternative_name_inj (n : string) (k1 k2 : nat) :
  get_alternative_name n k1 = get_alternative_name n k2 → k1 = k2.
Proof.
  unfold get_alternative_name. intros H.
  apply (inj (String.append n)), (inj (String.append "_")) in H.
  by apply (inj pretty) in H.
Qed.

(** [save] never overwrites: the name it picks is free. *)
Lemma get_available_name_fresh (store : Blobs) (n : string) :
  store !! get_available_name store n = None.
Proof.
  unfold get_available_name.
  set (candidates := n :: map (get_alternative_name n) (seq 1 (size store))).
  destruct (List.find _ candidates) as [c|] eqn:Hfind; simpl.
  - apply List.find_some in Hfind as [_ Hc]. by apply bool_decide_eq_true in Hc.
  - exfalso.
    assert (Hnodup : NoDup candidates).
    { subst candidates. apply NoDup_cons. split.
      - intros Hin. apply list_elem_of_fmap in Hin as (k & Hk & _).
        symmetry in Hk. by apply get_alternative_name_ne in Hk.
      - apply NoDup_fmap_2; [|apply NoDup_seq].
        intros k1 k2. apply get_alternative_name_inj. }
    assert (Hsub : list_to_set candidates ⊆ dom store).
    { intros c Hc. apply elem_of_list_to_set in Hc. apply elem_of_dom.
      apply list_elem_of_In in Hc.
      pose proof (List.find_none _ _ Hfind c Hc) as Hfalse.
      apply bool_decide_eq_false in Hfalse.
      destruct (store !! c); [eauto | done]. }
    apply subseteq_size in Hsub.
    rewrite size_list_to_set, size_dom in Hsub by done.
    subst candidates. simpl in Hsub. rewrite length_map, length_seq in Hsub. lia.
Qed.

(** * Further properties of the model *)

(** ** Duplicates *)



(** ** MIME type *)

Lemma str_split_nonempty (sep : ascii) (s : string) : str_split sep s ≠ [].
Proof.
  destruct s as [|c s]; simpl; [done|].
  destruct (Ascii.eqb c sep); [done|]. destruct (str_split sep s); done.
Qed.

Lemma str_split_no_sep (sep : ascii) (s : string) :
  str_contains sep s = false → str_split sep s = [s].
Proof.
  unfold str_contains. induction s as [|c s IH]; simpl; [done|].
  intros H. apply orb_false_iff in H as [Hc Hs].
  rewrite Ascii.eqb_sym, Hc, (IH Hs). done.
Qed.

Lemma str_split_app (sep : ascii) (a b : string) :
  str_contains sep a = false →
  str_split sep (a +:+ String sep b) = a :: str_split sep b.
Proof.
  unfold str_contains. induction a as [|c a IH]; intros H.
  - change (str_split sep (String sep b) = "" :: str_split sep b).
    simpl. by rewrite Ascii.eqb_refl.
  - simpl in H. apply orb_false_iff in H as [Hc Ha].
    change (str_split sep (String c (a +:+ String sep b)) = String c a :: str_split sep b).
    simpl. rewrite Ascii.eqb_sym, Hc, (IH Ha). done.
Qed.

(** X17. The two halves of a MIME type. For a type [main/sub] with no other
    slash, [mime_maintype] is [main] and [mime_subtype] is [sub]; for a type
    without a slash, [mime_maintype] is the whole type and [mime_subtype]
    raises [IndexError]. *)
Theorem mime_type_halves {Folder} (c : Columns Folder) :
  (∀ main sub,
      mime_type c = main +:+ String "/" sub →
      str_contains "/" main = false → str_contains "/" sub = false →
      mime_maintype c = inr main ∧ mime_subtype c = inr sub)
  ∧ (str_contains "/" (mime_type c) = false →
     mime_maintype c = inr (mime_type c) ∧ mime_subtype c = inl IndexError).
Proof.
  unfold mime_maintype, mime_subtype. split.
  - intros main sub -> Hm Hs. by rewrite (str_split_app _ _ _ Hm), (str_split_no_sep _ _ Hs).
  - intros H. by rewrite (str_split_no_sep _ _ H).
Qed.

Lemma mime_type_halves_witness :
  (mime_maintype fixture.plain = inr "image" ∧ mime_subtype fixture.plain = inr "jpeg")
  ∧ mime_subtype (mkColumns (Folder := nat) None "binary" None None) = inl IndexError.
Proof.
  split.
  - apply (proj1 (mime_type_halves fixture.plain) "image" "jpeg"); reflexivity.
  - apply (proj2 (mime_type_halves (mkColumns (Folder := nat) None "binary" None None))).
    reflexivity.
Defined.

(** ** Names *)

(** X18. The label of a record is never empty; it is the display name when there
    is one; and [__str__] agrees with it as soon as the display name or the
    original filename is not empty. With neither, the label is the fixed
    fallback while [__str__] is empty or spells [None]. *)
Theorem label_never_empty {Folder} (s : File) (c : Columns Folder) :
  label s c ≠ ""
  ∧ (∀ n, display_name c = Some n → n ≠ "" → label s c = n ∧ __str__ s c = n)
  ∧ (∀ f, str_bool (default "" (display_name c)) = false →
          original_filename s = Some f → f ≠ "" →
          label s c = f ∧ __str__ s c = f)
  ∧ (str_bool (default "" (display_name c)) = false →
     str_bool (default "" (original_filename s)) = false →
     label s c = "unnamed file"
     ∧ (__str__ s c = "" ∨ __str__ s c = "None")).
Proof.
  unfold label, __str__, str_bool. split_and!.
  - destruct (display_name c) as [n|]; [destruct (String.eqb_spec n "")|];
      try done; destruct (original_filename s) as [f|]; try done;
      simpl; destruct (String.eqb_spec f ""); done.
  - intros n -> Hn. apply String.eqb_neq in Hn. by rewrite Hn.
  - intros f Hd -> Hf. apply String.eqb_neq in Hf.
    destruct (display_name c) as [n|]; simpl in *; [|by rewrite Hf].
    apply negb_false_iff in Hd. rewrite Hd. simpl. by rewrite Hf.
  - intros Hd Ho.
    assert (Hfall : match original_filename s with
                    | Some f => if negb (String.eqb f "") then f else "unnamed file"
                    | None => "unnamed file"
                    end = "unnamed file"
                    ∧ (default "None" (original_filename s) = ""
                       ∨ default "None" (original_filename s) = "None")).
    { destruct (original_filename s) as [f|]; simpl in *; [|by auto].
      apply negb_false_iff in Ho. rewrite Ho. simpl.
      apply String.eqb_eq in Ho. auto. }
    destruct Hfall as [Hl Hs].
    destruct (display_name c) as [n|]; simpl in *; [|done].
    apply negb_false_iff in Hd. rewrite Hd. done.
Qed.

Lemma label_never_empty_witness :
  label sample.record fixture.owned = "Report"
  ∧ label sample.record fixture.plain = "a.txt"
  ∧ label (mkFile File_class None (mkFieldFile None None) None "" None None
             false false None None) fixture.plain = "unnamed file".
Proof.
  split_and!.
  - apply (proj1 (proj2 (label_never_empty sample.record fixture.owned)) "Report");
      [reflexivity | discriminate].
  - apply (proj1 (proj2 (proj2 (label_never_empty sample.record fixture.plain))) "a.txt");
      [reflexivity | reflexivity | discriminate].
  - apply (proj2 (proj2 (proj2 (label_never_empty _ fixture.plain)))); reflexivity.
Defined.

(** ** Folders and permissions *)

(** X21. The logical path of a record is never empty: it ends with the logical
    folder of the record, after the ancestors of its folder in their order;
    for a record without a folder it is the virtual folder of unsorted files
    alone. *)
Theorem logical_path_ends_with_logical_folder {Folder}
    (get_ancestors : Folder → list Folder) (c : Columns Folder) :
  last (logical_path get_ancestors c) = Some (logical_folder c)
  ∧ length (logical_path get_ancestors c)
    = S (from_option (λ f, length (get_ancestors f)) 0%nat (folder c))
  ∧ (folder c = None → logical_path get_ancestors c = [UnsortedImages])
  ∧ (∀ f, folder c = Some f →
          logical_path get_ancestors c
          = map RealFolder (get_ancestors f) ++ [RealFolder f]).
Proof.
  unfold logical_path, logical_folder.
  destruct (folder c) as [f|]; simpl; split_and!; try done.
  - by rewrite last_snoc.
  - rewrite length_app, length_map. simpl. lia.
  - by intros f' [= <-].
Qed.

Lemma logical_path_witness :
  logical_path fixture.get_ancestors fixture.owned
  = [RealFolder 1%nat; RealFolder 2%nat; RealFolder 3%nat]
  ∧ logical_path fixture.get_ancestors fixture.plain = [UnsortedImages].
Proof.
  destruct (logical_path_ends_with_logical_folder fixture.get_ancestors fixture.owned)
    as (_ & _ & _ & Hreal).
  destruct (logical_path_ends_with_logical_folder fixture.get_ancestors fixture.plain)
    as (_ & _ & Hnone & _).
  split; [exact (Hreal 3%nat eq_refl) | exact (Hnone eq_refl)].
Defined.

(** X20. The kind of permission asked for matters only when the folder decides:
    for a user who is not authenticated, a superuser, the owner, or for a
    record without a folder, the three permission methods give the same
    answer. A user who is not authenticated is refused even as the owner of
    the record and whatever the folder would answer; an authenticated
    superuser or owner is granted whatever the folder would answer. *)
Theorem permission_kind_only_matters_in_folder {Folder Answer} (py_True py_False : Answer)
    (Folder_has_generic_permission : Folder → HttpRequest → string → Answer)
    (c : Columns Folder) (request : HttpRequest) :
  let u := user request in
  let ask := has_generic_permission py_True py_False Folder_has_generic_permission c request in
  (is_authenticated u = false → ∀ kind, ask kind = py_False)
  ∧ (is_authenticated u = true →
     is_superuser u = true ∨ (is_Some (user_pk u) ∧ user_pk u = owner c) →
     ∀ kind, ask kind = py_True)
  ∧ (is_authenticated u = false ∨ is_superuser u = true
     ∨ (is_Some (user_pk u) ∧ user_pk u = owner c) ∨ folder c = None →
     has_edit_permission py_True py_False Folder_has_generic_permission c request
     = has_read_permission py_True py_False Folder_has_generic_permission c request
     ∧ has_read_permission py_True py_False Folder_has_generic_permission c request
       = has_add_children_permission py_True py_False Folder_has_generic_permission c request)
  ∧ (is_authenticated u = true → is_superuser u = false →
     ¬ (is_Some (user_pk u) ∧ user_pk u = owner c) →
     ∀ f kind, folder c = Some f → ask kind = Folder_has_generic_permission f request kind).
Proof.
  intros u ask. subst u ask.
  unfold has_edit_permission, has_read_permission, has_add_children_permission,
    has_generic_permission.
  split_and!.
  - intros -> kind. done.
  - intros -> [-> | Ho] kind; simpl; [done|].
    destruct (is_superuser _); [done|]. by rewrite bool_decide_eq_true_2.
  - intros H. destruct (is_authenticated _); simpl; [|done].
    destruct (is_superuser _); [done|]. case_bool_decide; [done|].
    destruct H as [H | [H | [H | H]]]; try done. by rewrite H.
  - intros -> -> Hno f kind ->. simpl. by rewrite bool_decide_eq_false_2.
Qed.

Lemma permission_kind_witness :
  (has_edit_permission true false fixture.Folder_has_generic_permission fixture.owned
     (mkHttpRequest fixture.anonymous) = false)
  ∧ (has_edit_permission true false fixture.Folder_has_generic_permission fixture.owned
       (mkHttpRequest fixture.alice) = true)
  ∧ (has_edit_permission true false fixture.Folder_has_generic_permission fixture.owned
       (mkHttpRequest fixture.root)
     = has_read_permission true false fixture.Folder_has_generic_permission fixture.owned
         (mkHttpRequest fixture.root)).
Proof.
  split_and!.
  - apply (proj1 (permission_kind_only_matters_in_folder true false
             fixture.Folder_has_generic_permission fixture.owned
             (mkHttpRequest fixture.anonymous))). reflexivity.
  - apply (proj1 (proj2 (permission_kind_only_matters_in_folder true false
             fixture.Folder_has_generic_permission fixture.owned
             (mkHttpRequest fixture.alice)))); [reflexivity|].
    right. split; [by eexists | reflexivity].
  - apply (proj1 (proj2 (proj2 (permission_kind_only_matters_in_folder true false
             fixture.Folder_has_generic_permission fixture.owned
             (mkHttpRequest fixture.root))))).
    right. left. reflexivity.
Defined.

(** ** Canonical time and URL *)



(** X23. For a public record with a file: when the canonical route cannot be
    resolved ([NoReverseMatch]), [canonical_url] is the empty string provided
    the upload time can be turned into a canonical time; when the upload
    time is missing, as on a record that was never saved, [canonical_url]
    raises [TypeError] whatever the resolver does; and when the route
    resolves, [canonical_url] is the URL the resolver gives for the canonical
    time and the primary key. *)
Theorem canonical_url_public (USE_TZ : bool)
    (reverse_canonical : Z → option Z → Exn + string) (s : File) :
  is_public s = true →
  FieldFile_bool (file s) = true →
  (uploaded_at s = None → canonical_url USE_TZ reverse_canonical s = inl TypeError)
  ∧ (∀ t, canonical_time USE_TZ s = inr t →
          reverse_canonical t (pk s) = inl NoReverseMatch →
          canonical_url USE_TZ reverse_canonical s = inr "")
  ∧ (∀ t u, canonical_time USE_TZ s = inr t →
            reverse_canonical t (pk s) = inr u →
            canonical_url USE_TZ reverse_canonical s = inr u).
Proof.
  intros Hp Hf. unfold canonical_url. rewrite Hp, Hf. simpl. split_and!.
  - intros Hu. unfold canonical_time. by rewrite Hu.
  - intros t -> ->. done.
  - intros t u -> ->. done.
Qed.

Lemma canonical_url_public_witness :
  canonical_url true sample.reverse_canonical fixture.unsaved_public = inl TypeError
  ∧ canonical_url true sample.reverse_canonical
      (with_pk None (with_is_public true sample.record)) = inr "".
Proof.
  split.
  - apply (proj1 (canonical_url_public true sample.reverse_canonical fixture.unsaved_public
                    eq_refl eq_refl)). reflexivity.
  - apply (proj1 (proj2 (canonical_url_public true sample.reverse_canonical
                           (with_pk None (with_is_public true sample.record))
                           eq_refl eq_refl)) 1699996400); reflexivity.
Defined.

(** ** Ordering *)







(** ** URL and path *)

(** X24. [url] and [path] never raise and leave the world as it was. Without a
    file they are the empty string; with a file they are what the storage of
    the record answers, and the empty string when the storage raises,
    whatever it raises. *)
Theorem url_and_path_never_raise
    (storage_url storage_path : Tier → string → Exn + string) (st : State) :
  let t := tier_of (is_public (self st)) in
  (FieldFile_bool (file (self st)) = false →
   url storage_url st = Ok "" st ∧ path storage_path st = Ok "" st)
  ∧ (∀ n, FieldFile_bool (file (self st)) = true → name (file (self st)) = Some n →
          url storage_url st
          = Ok (match storage_url t n with inr u => u | inl _ => "" end) st
          ∧ path storage_path st
            = Ok (match storage_path t n with inr u => u | inl _ => "" end) st).
Proof.
  intros t. subst t. unfold url, path, file_url, file_path, _require_file, file_storage.
  unfold_monad. split.
  - intros Hb. rewrite Hb. destruct (name (file (self st))); done.
  - intros n Hb Hn. rewrite Hn, Hb. simpl.
    destruct (storage_url _ n), (storage_path _ n); done.
Qed.

Lemma url_and_path_never_raise_witness :
  url fixture.storage_url sample.st_publish = Ok "/media/up/a.txt" sample.st_publish
  ∧ path fixture.storage_path sample.st_publish = Ok "" sample.st_publish.
Proof.
  apply (proj2 (url_and_path_never_raise fixture.storage_url fixture.storage_path
                  sample.st_publish) "up/a.txt"); reflexivity.
Defined.

(** ** What hashing and the callback never do *)

Lemma file_read_outside (n : N) (st : State) :
  outside_of_hashing (final (file_read n st)) = outside_of_hashing st
  ∧ _file_data_changed_hint (self (final (file_read n st))) = _file_data_changed_hint (self st).
Proof. run_file_ops. repeat (case_match; simplify_eq/=); done. Qed.

Lemma file_seek_outside (p : nat) (st : State) :
  outside_of_hashing (final (file_seek p st)) = outside_of_hashing st
  ∧ _file_data_changed_hint (self (final (file_seek p st))) = _file_data_changed_hint (self st).
Proof. run_file_ops. repeat (case_match; simplify_eq/=); done. Qed.

Lemma file_size_outside (st : State) :
  outside_of_hashing (final (file_size st)) = outside_of_hashing st
  ∧ _file_data_changed_hint (self (final (file_size st))) = _file_data_changed_hint (self st)
  ∧ self (final (file_size st)) = self st.
Proof. run_file_ops. repeat (case_match; simplify_eq/=); done. Qed.

Lemma generate_sha1_frame (st : State) :
  outside_of_hashing (final (generate_sha1 st)) = outside_of_hashing st
  ∧ _file_data_changed_hint (self (final (generate_sha1 st)))
    = _file_data_changed_hint (self st).
Proof.
  set (P := λ s0 s : State,
         outside_of_hashing s = outside_of_hashing s0
         ∧ _file_data_changed_hint (self s) = _file_data_changed_hint (self s0)).
  change (P st (final (generate_sha1 st))).
  assert (Hseek : ∀ s0 s, P s0 s → P s0 (final (file_seek 0 s))).
  { intros s0 s [H1 H2]. destruct (file_seek_outside 0 s) as [H3 H4].
    split; congruence. }
  assert (Hread : ∀ s0 s, P s0 s → P s0 (final (file_read CHUNK s))).
  { intros s0 s [H1 H2]. destruct (file_read_outside CHUNK s) as [H3 H4].
    split; congruence. }
  unfold generate_sha1. unfold_monad.
  pose proof (Hseek st st (conj eq_refl eq_refl)) as H1.
  destruct (file_seek 0 st) as [[] st1|e st1]; simpl in H1; [|exact H1].
  pose proof (hash_loop_invariant (P st) (Hread st) hashlib.sha1 st1 H1) as H2.
  destruct (hash_loop hashlib.sha1 st1) as [sha st2|e st2]; simpl in H2; [|exact H2].
  apply Hseek. destruct H2 as [H2 H3]. split; [exact H2 | exact H3].
Qed.

(** X6. [generate_sha1] reads: whether it returns or raises, the storages, the
    thumbnails, the table, and the name, tier and key of the record are as
    before, and so is the hint. *)
Theorem generate_sha1_only_reads (st : State) :
  outside_of_hashing (final (generate_sha1 st)) = outside_of_hashing st
  ∧ _file_data_changed_hint (self (final (generate_sha1 st)))
    = _file_data_changed_hint (self st).
Proof. apply generate_sha1_frame. Qed.

Lemma file_data_changed_frame (post_init : bool) (st : State) :
  outside_of_hashing (final (file_data_changed post_init st)) = outside_of_hashing st
  ∧ _file_data_changed_hint (self (final (file_data_changed post_init st))) = None.
Proof.
  assert (Hcaches : ∀ s,
    _file_data_changed_hint (self s) = None →
    outside_of_hashing (final (bind cache_file_size (λ _, bind cache_sha1 (λ _, ret true)) s))
    = outside_of_hashing s
    ∧ _file_data_changed_hint
        (self (final (bind cache_file_size (λ _, bind cache_sha1 (λ _, ret true)) s))) = None).
  { intros s Hs. unfold cache_file_size, cache_sha1. unfold_monad.
    destruct (file_size_outside s) as (Ho1 & Hh1 & Hs1).
    assert (Hmid : ∃ s1, match
                 match file_size s with
                 | Ok a st' => Ok () (with_self (with_file_size (Some a) (self st')) st')
                 | Raise e st' => Raise e st'
                 end
               with
               | Ok a st0 => Ok a st0
               | Raise e st' =>
                   if true then Ok () (with_self (with_file_size None (self st')) st')
                   else Raise e st'
               end = Ok () s1
               ∧ outside_of_hashing s1 = outside_of_hashing s
               ∧ _file_data_changed_hint (self s1) = None).
    { destruct (file_size s) as [sz s'|e s']; simpl in *; eexists; (split; [reflexivity|]);
        split; simpl; try congruence; exact Ho1. }
    destruct Hmid as (s1 & -> & Ho & Hh).
    destruct (generate_sha1_frame s1) as [Hg1 Hg2].
    destruct (generate_sha1 s1) as [[] s2|e s2]; simpl in *.
    - split; congruence.
    - destruct (is_Exception e); unfold outside_of_hashing in *; simpl in *;
        split; congruence. }
  unfold file_data_changed. unfold_monad.
  destruct (_file_data_changed_hint (self st)) as [[|]|] eqn:Hhint; simpl.
  - destruct (post_init && _ && _); simpl; [done|].
    apply (Hcaches (with_self (with_hint None (self st)) st)). done.
  - done.
  - destruct (post_init && _ && _); simpl; [done|]. by apply Hcaches.
Qed.

(** X7. The callback only updates the cached size and digest (and the handle of
    the file it reads): whether it returns or raises, the storages, the
    thumbnails, the table, and the name, tier and key of the record are as
    before; and the hint is spent: it is [None] afterwards, so that a hint
    suppresses one call only. *)
Theorem file_data_changed_only_updates_caches (post_init : bool) (st : State) :
  outside_of_hashing (final (file_data_changed post_init st)) = outside_of_hashing st
  ∧ _file_data_changed_hint (self (final (file_data_changed post_init st))) = None.
Proof. apply file_data_changed_frame. Qed.

Lemma file_data_changed_post_init_skips_witness :
  returned (file_data_changed true sample.st_shared) = Some false
  ∧ log (final (file_data_changed true sample.st_shared)) = [].
Proof.
  destruct (file_data_changed_post_init_skips sample.st_shared eq_refl eq_refl)
    as (st' & Hrun & _ & _ & _ & Hlog).
  rewrite Hrun. split; [reflexivity | exact Hlog].
Defined.

(** ** The callback on a file that can be read *)

Lemma readable_frame (st st' : State) (c : bytes) :
  readable st c →
  file (self st') = file (self st) →
  is_public (self st') = is_public (self st) →
  storages st' = storages st →
  fault st' = fault st →
  readable st' c.
Proof.
  intros Hr Hf Hp Hs Hfa. unfold readable in *. rewrite Hf, Hp, Hs, Hfa. exact Hr.
Qed.

Lemma file_size_stored (st : State) (c : bytes) (n : string) :
  FieldFile_bool (file (self st)) = true →
  name (file (self st)) = Some n →
  storages st (tier_of (is_public (self st))) !! n = Some c →
  fault st (OpSize (tier_of (is_public (self st))) n) = None →
  file_size st
  = Ok (Z.of_nat (length c))
       (with_log (log st ++ [(OpSize (tier_of (is_public (self st))) n, None)]) st).
Proof.
  intros Hb Hn Hc Hf. run_file_ops. rewrite Hn, Hb. simpl. rewrite Hf, Hc. reflexivity.
Qed.

(** X4. When the update runs on a record whose blob is [c] and can be read, the
    callback returns [True], the cached size is the length of [c], the
    digest is the SHA-1 of [c], and the [size] property is that length. *)
Theorem file_data_changed_recomputes (post_init : bool) (st : State) (c : bytes) (n : string) :
  readable st c →
  name (file (self st)) = Some n →
  storages st (tier_of (is_public (self st))) !! n = Some c →
  fault st (OpSize (tier_of (is_public (self st))) n) = None →
  _file_data_changed_hint (self st) ≠ Some false →
  post_init && int_bool (_file_size (self st)) && str_bool (sha1 (self st)) = false →
  ∃ st',
    file_data_changed post_init st = Ok true st'
    ∧ _file_size (self st') = Some (Z.of_nat (length c))
    ∧ sha1 (self st') = hashlib.hexdigest (hashlib.update hashlib.sha1 c)
    ∧ property.size (self st') = Z.of_nat (length c).
Proof.
  intros Hr Hn Hc Hf Hhint Hpost.
  assert (Hcaches : ∀ s, readable s c → name (file (self s)) = Some n →
            storages s (tier_of (is_public (self s))) !! n = Some c →
            fault s (OpSize (tier_of (is_public (self s))) n) = None →
            ∃ st', bind cache_file_size (λ _, bind cache_sha1 (λ _, ret true)) s = Ok true st'
                   ∧ _file_size (self st') = Some (Z.of_nat (length c))
                   ∧ sha1 (self st') = hashlib.hexdigest (hashlib.update hashlib.sha1 c)).
  { intros s Hrs Hns Hcs Hfs. pose proof Hrs as (Hb & _).
    unfold cache_file_size, cache_sha1. unfold_monad.
    rewrite (file_size_stored s c n Hb Hns Hcs Hfs). simpl.
    set (s1 := with_self _ _).
    assert (Hr1 : readable s1 c) by (apply (readable_frame s); done).
    destruct (generate_sha1_readable s1 c Hr1) as (s2 & pre & k & -> & Hself & _).
    eexists. split; [reflexivity|]. rewrite Hself. done. }
  assert (Hsize : ∀ s : File, _file_size s = Some (Z.of_nat (length c)) →
                              property.size s = Z.of_nat (length c)).
  { intros s Hs. unfold property.size. rewrite Hs. simpl.
    destruct (Z.eqb_spec (Z.of_nat (length c)) 0); simpl; lia. }
  unfold file_data_changed. unfold_monad.
  destruct (_file_data_changed_hint (self st)) as [[|]|] eqn:Hh; simpl; [|done|].
  - rewrite Hpost.
    assert (Hr0 : readable (with_self (with_hint None (self st)) st) c)
      by (apply (readable_frame st); done).
    destruct (Hcaches (with_self (with_hint None (self st)) st) Hr0 Hn Hc Hf)
      as (st' & -> & H1 & H2).
    exists st'. split_and!; auto.
  - rewrite Hpost.
    destruct (Hcaches st Hr Hn Hc Hf) as (st' & -> & H1 & H2).
    exists st'. split_and!; auto.
Qed.

Lemma file_data_changed_recomputes_witness :
  returned (file_data_changed false sample.st_shared) = Some true
  ∧ _file_size (self (final (file_data_changed false sample.st_shared))) = Some 3
  ∧ property.size (self (final (file_data_changed false sample.st_shared))) = 3.
Proof.
  assert (Hr : readable sample.st_shared sample.abc).
  { split; [reflexivity|]. split; [|split; reflexivity].
    exists "up/a.txt". split; [reflexivity|]. split; [|reflexivity].
    vm_compute. reflexivity. }
  assert (Hc : storages sample.st_shared (tier_of (is_public (self sample.st_shared)))
               !! "up/a.txt" = Some sample.abc) by (vm_compute; reflexivity).
  assert (Hh : _file_data_changed_hint (self sample.st_shared) ≠ Some false)
    by (vm_compute; discriminate).
  destruct (file_data_changed_recomputes false sample.st_shared sample.abc "up/a.txt"
              Hr eq_refl Hc eq_refl Hh eq_refl) as (st' & Hrun & H1 & _ & H2).
  rewrite Hrun. split_and!; [reflexivity | exact H1 | exact H2].
Defined.

(** ** Saving *)

Lemma next_pk_fresh (table : gmap Z File) : table !! next_pk table = None.
Proof.
  unfold next_pk.
  assert (H : ∀ k, is_Some (table !! k) → k ≤ map_fold (λ k _ acc, Z.max k acc) 0 table).
  { apply (map_fold_weak_ind
             (λ acc (m : gmap Z File), ∀ k, is_Some (m !! k) → k ≤ acc)).
    - intros k [x Hx]. by rewrite lookup_empty in Hx.
    - intros i x m acc Hi IH k Hk.
      destruct (decide (k = i)) as [->|Hne]; [lia|].
      rewrite lookup_insert_ne in Hk by done. specialize (IH k Hk). lia. }
  destruct (table !! (1 + _)) eqn:Hl; [|done].
  specialize (H _ (mk_is_Some _ _ Hl)). lia.
Qed.

(** What a [save] leaves behind. When it returns, the tier of the record is
    the one it was called with and the row of the record in the table is the
    record as it now is; for a record that had a key that is not zero, the
    previous tier now equals the tier. When it raises, the table is as it
    was. *)
Lemma save_outcome (generate_filename : File → option string → string) (st : State) :
  match save generate_filename st with
  | Ok _ st' =>
      is_public (self st') = is_public (self st)
      ∧ (int_bool (pk (self st)) = true → _old_is_public (self st') = is_public (self st'))
      ∧ (∃ k, pk (self st') = Some k ∧ objects st' = <[k := self st']> (objects st)
              ∧ match pk (self st) with Some k0 => k = k0 | None => objects st !! k = None end)
  | Raise _ st' => objects st' = objects st
  end.
Proof.
  run_move.
  repeat first [ rewrite file_data_changed_hint_false by done
               | case_inner; simplify_eq/= ].
  all: try done.
  all: repeat match goal with H : pk (self _) = _ |- _ => rewrite H end.
  all: split_and!; try done.
  all: try (eexists; split_and!;
            [reflexivity | reflexivity | first [done | apply next_pk_fresh]]).
  all: intros; simplify_eq/=; try done.
  all: match goal with
       | H : negb _ && negb _ = false, H1 : negb _ = true |- _ =>
           rewrite H1, andb_true_r in H;
           destruct (_old_is_public (self st)), (is_public (self st)); done
       end.
Qed.

Lemma save_quiet
    (generate_filename : File → option string → string) (st : State) :
  _old_is_public (self st) = is_public (self st) ∨ int_bool (pk (self st)) = false →
  returned (save generate_filename st) = Some tt
  ∧ log (final (save generate_filename st)) = log st
  ∧ storages (final (save generate_filename st)) = storages st
  ∧ thumbnails (final (save generate_filename st)) = thumbnails st
  ∧ file (self (final (save generate_filename st))) = file (self st)
  ∧ _old_is_public (self (final (save generate_filename st))) = _old_is_public (self st).
Proof.
  intros H.
  assert (Hguard : negb (Bool.eqb (_old_is_public (self st)) (is_public (self st)))
                   && int_bool (pk (self st)) = false).
  { destruct H as [-> | ->]; [by rewrite Bool.eqb_reflx | by rewrite andb_false_r]. }
  unfold save, Model_save. unfold_monad.
  destruct (__class__ (self st)); simpl; rewrite Hguard; simpl;
    destruct (pk (self st)); done.
Qed.





(** X10. A [save] that returns on a record with a key other than zero leaves the
    record in step with the table: the tier is unchanged, the previous tier
    equals it, the key is kept, the row under the key is the record as it
    now is; and a second [save] right after issues no operation and changes
    no storage. *)
Theorem save_keeps_record_in_step
    (generate_filename : File → option string → string) (st st' : State) (k : Z) :
  pk (self st) = Some k → k ≠ 0 →
  save generate_filename st = Ok tt st' →
  is_public (self st') = is_public (self st)
  ∧ _old_is_public (self st') = is_public (self st')
  ∧ pk (self st') = Some k
  ∧ objects st' !! k = Some (self st')
  ∧ log (final (save generate_filename st')) = log st'
  ∧ storages (final (save generate_filename st')) = storages st'.
Proof.
  intros Hpk Hk Hrun.
  pose proof (save_outcome generate_filename st) as Hout.
  rewrite Hrun, Hpk in Hout. destruct Hout as (Hp & Hold & k' & Hk' & Hobj & ->).
  assert (Hold' : _old_is_public (self st') = is_public (self st')).
  { apply Hold. simpl. apply negb_true_iff, Z.eqb_neq. done. }
  destruct (save_quiet generate_filename st' (or_introl Hold'))
    as (_ & Hlog & Hsto & _).
  split_and!; try done. rewrite Hobj. apply lookup_insert_eq.
Qed.

Lemma save_keeps_record_in_step_witness :
  _old_is_public (self (final (save sample.generate_filename sample.st_publish))) = true
  ∧ objects (final (save sample.generate_filename sample.st_publish)) !! 7
    = Some (self (final (save sample.generate_filename sample.st_publish))).
Proof.
  assert (Hrun : save sample.generate_filename sample.st_publish
                 = Ok tt (final (save sample.generate_filename sample.st_publish)))
    by (vm_compute; reflexivity).
  assert (Hk : (7 : Z) ≠ 0) by discriminate.
  destruct (save_keeps_record_in_step sample.generate_filename sample.st_publish _ 7
              eq_refl Hk Hrun) as (Hp & Hold & _ & Hrow & _).
  split; [|exact Hrow]. rewrite Hold, Hp. reflexivity.
Defined.

(** X11. A [save] that raises has not written to the table: the rows are as they
    were, so the row of the record still names the blob it named. *)
Theorem save_raise_keeps_table
    (generate_filename : File → option string → string) (st : State) (e : Exn) :
  raised (save generate_filename st) = Some e →
  objects (final (save generate_filename st)) = objects st.
Proof.
  intros Hr. pose proof (save_outcome generate_filename st) as Hout.
  destruct (save generate_filename st); simpl in *; done.
Qed.

Lemma save_raise_keeps_table_witness :
  objects (final (save sample.generate_filename sample.st_read_only)) !! 7
  = Some sample.record.
Proof.
  assert (Hr : raised (save sample.generate_filename sample.st_read_only) = Some OSError)
    by (vm_compute; reflexivity).
  rewrite (save_raise_keeps_table sample.generate_filename sample.st_read_only OSError Hr).
  vm_compute. reflexivity.
Defined.


(** ** The move, when it fails *)

(** X13. When the destination write raises, [_move_file] raises the same
    exception; the record still names the source blob in the tier it had,
    the storages are as they were, and the hint is left at [False], so that
    the next call of the callback is suppressed. *)
Theorem move_write_failure_leaves_hint
    (generate_filename : File → option string → string) (st : State)
    (n : string) (c : bytes) (e : Exn) :
  let src := tier_of (negb (is_public (self st))) in
  let dst := tier_of (is_public (self st)) in
  name (file (self st)) = Some n →
  fault st (OpDeleteThumbnails src n) = None →
  fault st (OpOpen src n) = None →
  storages st src !! n = Some c →
  fault st (OpSave dst (generate_filename (self st) (original_filename (self st))) c) = Some e →
  raised (_move_file generate_filename st) = Some e
  ∧ file (self (final (_move_file generate_filename st))) = file (self st)
  ∧ is_public (self (final (_move_file generate_filename st))) = is_public (self st)
  ∧ storages (final (_move_file generate_filename st)) = storages st
  ∧ _file_data_changed_hint (self (final (_move_file generate_filename st))) = Some false.
Proof.
  intros src dst Hn Hthumb Hopen Hc Hsave. subst src dst. run_move.
  repeat first [ rewrite file_data_changed_hint_false by done
               | case_inner; simplify_eq/= ].
  all: split_and!; done.
Qed.

Lemma move_write_failure_leaves_hint_witness :
  raised (_move_file sample.generate_filename sample.st_read_only) = Some OSError
  ∧ _file_data_changed_hint (self (final (_move_file sample.generate_filename
                                             sample.st_read_only))) = Some false.
Proof.
  assert (Hc : storages sample.st_read_only private !! "up/a.txt" = Some sample.abc)
    by (vm_compute; reflexivity).
  destruct (move_write_failure_leaves_hint sample.generate_filename sample.st_read_only
              "up/a.txt" sample.abc OSError eq_refl eq_refl eq_refl Hc eq_refl)
    as (H1 & _ & _ & _ & H2).
  split; [exact H1 | exact H2].
Defined.

(** X14. When the deletion of the thumbnails raises, [_move_file] raises the same
    exception before any blob is read or written, and [is_public] of the
    record is left negated: it was toggled for the deletion and is not
    toggled back. *)
Theorem move_thumbnail_failure_leaves_tier_toggled
    (generate_filename : File → option string → string) (st : State)
    (n : string) (e : Exn) :
  let src := tier_of (negb (is_public (self st))) in
  name (file (self st)) = Some n →
  fault st (OpDeleteThumbnails src n) = Some e →
  raised (_move_file generate_filename st) = Some e
  ∧ is_public (self (final (_move_file generate_filename st))) = negb (is_public (self st))
  ∧ storages (final (_move_file generate_filename st)) = storages st
  ∧ log (final (_move_file generate_filename st))
    = log st ++ [(OpDeleteThumbnails src n, Some e)].
Proof.
  intros src Hn Hthumb. subst src. run_move.
  repeat first [ rewrite file_data_changed_hint_false by done
               | case_inner; simplify_eq/= ].
  all: split_and!; done.
Qed.

Lemma move_thumbnail_failure_witness :
  raised (_move_file sample.generate_filename fixture.st_thumbnails_fail) = Some OSError
  ∧ is_public (self (final (_move_file sample.generate_filename fixture.st_thumbnails_fail)))
    = false.
Proof.
  destruct (move_thumbnail_failure_leaves_tier_toggled sample.generate_filename
              fixture.st_thumbnails_fail "up/a.txt" OSError eq_refl eq_refl)
    as (H1 & H2 & _).
  split; [exact H1 | exact H2].
Defined.

(** ** Copying *)

(** X15. [_copy_file] with [overwrite] raises [NotImplementedError] and does
    nothing. Otherwise, for a record whose blob is [c], it writes [c] under a
    name that was free in the storage of the record and returns that name:
    the storage differs only by the new blob, so the source blob and every
    other blob are kept; the other storage, the record and the table are
    untouched. When the blob is missing it raises [FileNotFoundError] and
    writes nothing. *)
Theorem copy_file_copies (destination : string) (st : State) (n : string) :
  let t := tier_of (is_public (self st)) in
  name (file (self st)) = Some n →
  fault st (OpOpen t n) = None →
  _copy_file destination true st = Raise NotImplementedError st
  ∧ (∀ c, storages st t !! n = Some c →
          fault st (OpSave t destination c) = None →
          ∃ d' st',
            _copy_file destination false st = Ok d' st'
            ∧ storages st t !! d' = None
            ∧ storages st' = at_tier t (<[d' := c]> (storages st t)) (storages st)
            ∧ storages st' t !! n = Some c
            ∧ storages st' t !! d' = Some c
            ∧ self st' = self st
            ∧ objects st' = objects st)
  ∧ (storages st t !! n = None →
     raised (_copy_file destination false st) = Some FileNotFoundError
     ∧ storages (final (_copy_file destination false st)) = storages st).
Proof.
  intros t Hn Hopen. subst t. split_and!.
  - reflexivity.
  - intros c Hc Hsave. unfold _copy_file, storage_open, storage_save. unfold_monad. simpl.
    rewrite Hn.
    replace (if is_public (self st) then public else private)
      with (tier_of (is_public (self st))) by done.
    rewrite Hopen, Hc. simpl. rewrite Hsave.
    pose proof (get_available_name_fresh (storages st (tier_of (is_public (self st))))
                  destination) as Hfresh.
    eexists _, _. split; [reflexivity|]. simpl. split_and!; try done.
    + unfold at_tier. rewrite decide_True by done.
      rewrite lookup_insert_ne; [done|]. intros <-. congruence.
    + unfold at_tier. rewrite decide_True by done. apply lookup_insert_eq.
  - intros Hc. unfold _copy_file, storage_open, storage_save. unfold_monad. simpl.
    rewrite Hn.
    replace (if is_public (self st) then public else private)
      with (tier_of (is_public (self st))) by done.
    rewrite Hopen, Hc. done.
Qed.

Lemma copy_file_copies_witness :
  returned (_copy_file "up/a.txt" false sample.st_shared) = Some "up/a.txt_1"
  ∧ storages (final (_copy_file "up/a.txt" false sample.st_shared)) private !! "up/a.txt"
    = Some sample.abc
  ∧ storages (final (_copy_file "up/a.txt" false sample.st_shared)) private !! "up/a.txt_1"
    = Some sample.abc.
Proof.
  assert (Hc : storages sample.st_shared private !! "up/a.txt" = Some sample.abc)
    by (vm_compute; reflexivity).
  destruct (copy_file_copies "up/a.txt" sample.st_shared "up/a.txt" eq_refl eq_refl)
    as (_ & Hcopy & _).
  destruct (Hcopy sample.abc Hc eq_refl) as (d' & st' & Hrun & _ & _ & Hsrc & Hdst & _).
  assert (Hd : returned (_copy_file "up/a.txt" false sample.st_shared) = Some "up/a.txt_1")
    by (vm_compute; reflexivity).
  rewrite Hrun in Hd |- *. cbn [returned final] in *. injection Hd as ->.
  split_and!; [reflexivity | exact Hsrc | exact Hdst].
Defined.

(** ** Deletion, when the storage fails *)

(** X16. The row goes first: when the record is the last to name its blob and
    the storage refuses the deletion, [delete] raises, the row of the record
    is already removed from the table, and the blob is still in the
    storage. *)
Theorem delete_storage_failure_leaves_blob (st : State) (k : Z) (n : string) (e : Exn) :
  pk (self st) = Some k →
  name (file (self st)) = Some n →
  n ≠ "" →
  let p := is_public (self st) in
  exists_ (filter_file (Some n) p (base.delete k (objects st))) = false →
  fault st (OpDelete (tier_of p) n) = Some e →
  raised (delete st) = Some e
  ∧ objects (final (delete st)) = base.delete k (objects st)
  ∧ storages (final (delete st)) = storages st
  ∧ pk (self (final (delete st))) = None.
Proof.
  intros Hk Hn Hne p Hshared Hfault. subst p.
  assert (Hbool : FieldFile_bool (file (self st)) = true).
  { unfold FieldFile_bool. rewrite Hn. apply negb_true_iff, String.eqb_neq. done. }
  unfold delete, Model_delete, FieldFile_delete, set_file, file_storage, storage_delete.
  unfold_monad. rewrite Hk. simpl. rewrite Hn, Hshared. simpl.
  rewrite Hn, Hbool. simpl. rewrite Hfault. simpl. done.
Qed.

Lemma delete_storage_failure_witness :
  raised (delete fixture.st_delete_fails) = Some OSError
  ∧ objects (final (delete fixture.st_delete_fails)) !! 7 = None
  ∧ storages (final (delete fixture.st_delete_fails)) private !! "up/a.txt"
    = Some sample.abc.
Proof.
  assert (Hne : "up/a.txt" ≠ "") by discriminate.
  assert (Hsh : exists_ (filter_file (Some "up/a.txt") (is_public (self fixture.st_delete_fails))
                           (base.delete 7 (objects fixture.st_delete_fails))) = false)
    by (vm_compute; reflexivity).
  destruct (delete_storage_failure_leaves_blob fixture.st_delete_fails 7 "up/a.txt" OSError
              eq_refl eq_refl Hne Hsh eq_refl) as (H1 & H2 & H3 & _).
  split_and!; [exact H1 | rewrite H2; apply lookup_delete_eq | rewrite H3; vm_compute; reflexivity].
Defined.

(** ** More on the callback and the duplicates *)



(** X5. When the update runs on a record without a file, the callback returns
    [True] with the size reset to null and the digest to the empty string,
    and issues no operation: the [size] property is then 0. *)
Theorem file_data_changed_without_file (post_init : bool) (st : State) :
  FieldFile_bool (file (self st)) = false →
  _file_data_changed_hint (self st) ≠ Some false →
  post_init && int_bool (_file_size (self st)) && str_bool (sha1 (self st)) = false →
  ∃ st',
    file_data_changed post_init st = Ok true st'
    ∧ _file_size (self st') = None
    ∧ sha1 (self st') = ""
    ∧ property.size (self st') = 0
    ∧ log st' = log st.
Proof.
  intros Hb Hhint Hpost.
  assert (Hsize : ∀ s, FieldFile_bool (file (self s)) = false →
            cache_file_size s = Ok tt (with_self (with_file_size None (self s)) s)).
  { intros s Hs. unfold cache_file_size. run_file_ops. rewrite Hs.
    destruct (name (file (self s))); done. }
  assert (Hsha : ∀ s, FieldFile_bool (file (self s)) = false →
            cache_sha1 s = Ok tt (with_self (with_sha1 "" (self s)) s)).
  { intros s Hs. unfold cache_sha1, generate_sha1. run_file_ops. rewrite Hs.
    destruct (name (file (self s))); done. }
  unfold file_data_changed. unfold_monad.
  destruct (_file_data_changed_hint (self st)) as [[|]|]; simpl; [|done|];
    rewrite Hpost, Hsize by done; simpl; rewrite Hsha by done;
    eexists; (split; [reflexivity|]); done.
Qed.

Lemma file_data_changed_without_file_witness :
  returned (file_data_changed false
              (sample.world None sample.no_fault
                 (with_file (mkFieldFile None None) sample.record) ∅)) = Some true
  ∧ sha1 (self (final (file_data_changed false
                         (sample.world None sample.no_fault
                            (with_file (mkFieldFile None None) sample.record) ∅)))) = "".
Proof.
  assert (Hh : _file_data_changed_hint
                 (self (sample.world None sample.no_fault
                          (with_file (mkFieldFile None None) sample.record) ∅)) ≠ Some false)
    by (vm_compute; discriminate).
  destruct (file_data_changed_without_file false
              (sample.world None sample.no_fault
                 (with_file (mkFieldFile None None) sample.record) ∅)
              eq_refl Hh eq_refl) as (st' & Hrun & _ & Hsha & _).
  rewrite Hrun. split; [reflexivity | exact Hsha].
Defined.
